(** * mcp-js-debugger: session brokers and source-map manager

    A shallow embedding of the two session managers of the repository and
    of the source-map manager, with the properties of the specification
    stated over them.

    - [SourceMapManager] embeds [src/source-map-manager.ts].
    - [SessionManager] embeds [src/session-manager.ts], the manager built
      on the CDP client ([src/cdp-client.ts]).
    - [WsSessionManager] embeds the manager built on the WebSocket client
      (the class [SessionManager] that carries a [ServerConfig]).

    Conventions of the embedding.
    - A JavaScript string is a [string]: a sequence of code units, here
      restricted to code units below 256.
    - Line and column numbers are integers ([Z]).
    - A [Map<string, V>] is a [gmap string V]; the order in which
      [values()] enumerates it is not modelled.
    - An optional field is an [option]; a thrown exception is the [Throw]
      outcome of the state-and-exception monad [M].
    - The outcome of a call into a library or into the target (the reply to
      a protocol command, [new URL], [JSON.parse], [uuidv4], ...) is an
      argument of the embedded function or a variable of its section.
    - An [async] method is embedded as one state transformer.  Where the
      method assigns to the session after an [await] whose outcome the
      event handlers can overtake ([createSession], [connect], [resume]),
      the notifications delivered during that [await] are an explicit
      argument [during]. *)

From stdpp Require Import gmap strings list pretty.
From Stdlib Require Import ZArith Ascii.

Open Scope string_scope.
Open Scope Z_scope.

(** ** Exceptions and mutable state *)

Inductive Outcome (E A : Type) : Type :=
| Ok (a : A)
| Throw (e : E).
Arguments Ok {E A} a.
Arguments Throw {E A} e.

Definition M (S E A : Type) : Type := S -> Outcome E A * S.

Definition ret {S E A} (a : A) : M S E A := fun s => (Ok a, s).
Definition throw {S E A} (e : E) : M S E A := fun s => (Throw e, s).
Definition bind {S E A B} (c : M S E A) (k : A -> M S E B) : M S E B :=
  fun s => match c s with
           | (Ok a, s') => k a s'
           | (Throw e, s') => (Throw e, s')
           end.
Definition gets {S E A} (f : S -> A) : M S E A := fun s => (Ok (f s), s).
Definition modify {S E} (f : S -> S) : M S E unit := fun s => (Ok tt, f s).
(** [await r]: the awaited promise settles with [r]. *)
Definition await {S E A} (r : Outcome E A) : M S E A := fun s => (r, s).
(** [try_catch c h]: [try { c } catch (e) { h e }]. *)
Definition try_catch {S E A} (c : M S E A) (h : E -> M S E A) : M S E A :=
  fun s => match c s with
           | (Ok a, s') => (Ok a, s')
           | (Throw e, s') => h e s'
           end.

Global Instance M_ret {S E} : MRet (M S E) := fun A a => ret a.
Global Instance M_bind {S E} : MBind (M S E) := fun A B k c => bind c k.

Definition is_ok {E A} (o : Outcome E A) : bool :=
  match o with Ok _ => true | Throw _ => false end.

(** ** JavaScript strings *)

Module Js.

(** [s.startsWith(p)]. *)
Definition startsWith (s p : string) : bool := String.prefix p s.

(** [s.includes(sub)]. *)
Fixpoint includes (s sub : string) : bool :=
  String.prefix sub s ||
  match s with
  | EmptyString => false
  | String _ s' => includes s' sub
  end.

(** Truthiness of a string: every string but the empty one. *)
Definition truthy (s : string) : bool :=
  match s with EmptyString => false | String _ _ => true end.

(** Truthiness of an optional string ([undefined], [null] and [""] are
    falsy). *)
Definition truthy_opt (o : option string) : bool :=
  match o with Some s => truthy s | None => false end.

(** [l.includes(x)] on an array of strings. *)
Definition array_includes (l : list string) (x : string) : bool :=
  bool_decide (x ∈ l).

(** [a[i]] for a number [i]: [undefined] outside [0 .. length-1]. *)
Definition index {A} (a : list A) (i : Z) : option A :=
  if bool_decide (0 <= i) then a !! Z.to_nat i else None.

(** [a.find(p)]. *)
Fixpoint find {A} (p : A -> bool) (a : list A) : option A :=
  match a with
  | [] => None
  | x :: a' => if p x then Some x else find p a'
  end.

(** [s.lastIndexOf(c) + 1] for a one-character search string, as a
    number of characters; [0] when [c] does not occur. *)
Fixpoint after_last (c : ascii) (s : string) : nat :=
  match s with
  | EmptyString => 0%nat
  | String d s' =>
      match after_last c s' with
      | O => if Ascii.eqb c d then 1%nat else 0%nat
      | S n => S (S n)
      end
  end.

End Js.

(** ** Regular expressions on data URLs *)

Module Re.

(** [strip p s]: the rest of [s] after the literal [p], when [s] starts
    with [p]. *)
Fixpoint strip (p s : string) : option string :=
  match p, s with
  | EmptyString, _ => Some s
  | String a p', String b s' =>
      if Ascii.eqb a b then strip p' s' else None
  | String _ _, EmptyString => None
  end.

(** The characters that [.] does not match, among code units below 256:
    line feed and carriage return. *)
Definition line_terminator (c : ascii) : bool :=
  Ascii.eqb c "010"%char || Ascii.eqb c "013"%char.

Fixpoint all_chars (p : ascii -> bool) (s : string) : bool :=
  match s with
  | EmptyString => true
  | String c s' => p c && all_chars p s'
  end.

(** [(.+)$]: the whole remaining input, when it is not empty and holds no
    line terminator. *)
Definition dot_plus_end (s : string) : option string :=
  if Js.truthy s && all_chars (fun c => negb (line_terminator c)) s
  then Some s else None.

(** [[^;]+] followed by the rest: the longest run of characters other
    than [;], which must not be empty, and what follows it. *)
Fixpoint span_not_semi (s : string) : string * string :=
  match s with
  | EmptyString => (EmptyString, EmptyString)
  | String c s' =>
      if Ascii.eqb c ";"%char then (EmptyString, s)
      else let '(v, r) := span_not_semi s' in (String c v, r)
  end.

(** [r1 <|> r2]: the first alternative that matches (backtracking). *)
Definition orelse {A} (a b : option A) : option A :=
  match a with Some x => Some x | None => b end.

End Re.

(** ** The platform: libraries the managers call *)

(** The interface of the [source-map] library that the manager uses. *)
Module SourceMap.

(** The answer of [originalPositionFor]: every field may be [null]. *)
Record MappedPosition := {
  mp_source : option string;
  mp_line : option Z;
  mp_column : option Z;
  mp_name : option string;
}.

Record SourceMapConsumer := {
  originalPositionFor : Z -> Z -> MappedPosition;
  generatedPositionFor : string -> Z -> Z -> option Z * option Z;
  sourceContentFor : string -> option string;
  sources : list string;
}.

End SourceMap.

(** The two fields of a WHATWG [URL] that admission reads. *)
Record URL := {
  protocol : string;
  hostname : string;
}.

(** The library functions whose results the managers depend on.  A
    function that can throw returns [None] when it does. *)
Class Platform := {
  (** the parsed JSON document handed to the consumer *)
  RawSourceMap : Type;
  (** [Buffer.from(s, 'base64').toString('utf-8')] *)
  base64_decode : string -> string;
  (** [JSON.parse(s)] *)
  JSON_parse : string -> option RawSourceMap;
  (** [await new SourceMapConsumer(raw)] *)
  new_consumer : RawSourceMap -> option SourceMap.SourceMapConsumer;
  (** [new URL(rel, new URL(base)).toString()] *)
  URL_resolve : string -> string -> option string;
  (** reading a source map from its resolved URL ([fs.readFile] for
      [file://], [fetch] otherwise); [None] when nothing is returned *)
  fetch_text : string -> option string;
  (** [new URL(s)] *)
  URL_parse : string -> option URL;
}.

(** ** Source-map manager ([src/source-map-manager.ts]) *)

Module SourceMapManager.
Import SourceMap.

Record OriginalLocation := {
  source : string;
  line : option Z;
  column : option Z;
  name : option string;
}.

Record t := {
  consumers : gmap string SourceMapConsumer;
  sourceMapUrls : gmap string string;
  originalSources : gmap string (list string);
}.

Definition empty : t :=
  {| consumers := ∅; sourceMapUrls := ∅; originalSources := ∅ |}.

(** The pattern of [loadInlineSourceMap]:
    [/^data:application\/json;(?:charset=utf-8;)?base64,(.+)$/];
    the result is the captured group. *)
Definition inline_pattern (dataUrl : string) : option string :=
  r0 ← Re.strip "data:application/json;" dataUrl;
  Re.orelse
    (r1 ← Re.strip "charset=utf-8;" r0;
     r2 ← Re.strip "base64," r1;
     Re.dot_plus_end r2)
    (r2 ← Re.strip "base64," r0;
     Re.dot_plus_end r2).

(** The data-URL form of the specification (section 6.3):
    [^data:application/json(?:;charset=[^;]+)?;base64,(.+)$]. *)
Definition documented_pattern (dataUrl : string) : option string :=
  r0 ← Re.strip "data:application/json" dataUrl;
  Re.orelse
    (r1 ← Re.strip ";charset=" r0;
     let '(v, r2) := Re.span_not_semi r1 in
     if Js.truthy v
     then r3 ← Re.strip ";base64," r2; Re.dot_plus_end r3
     else None)
    (r3 ← Re.strip ";base64," r0;
     Re.dot_plus_end r3).

Section Loading.

Context `{Platform}.

Definition install (scriptId : string) (url : option string)
    (consumer : SourceMapConsumer) (m : t) : t :=
  {| consumers := <[scriptId := consumer]> (consumers m);
     sourceMapUrls :=
       match url with
       | Some u => <[scriptId := u]> (sourceMapUrls m)
       | None => sourceMapUrls m
       end;
     originalSources :=
       <[scriptId := sources consumer]> (originalSources m) |}.

Definition loadInlineSourceMap (scriptId dataUrl : string) (m : t)
    : bool * t :=
  match inline_pattern dataUrl with
  | None => (false, m)
  | Some payload =>
      let sourceMapContent := base64_decode payload in
      match JSON_parse sourceMapContent with
      | None => (false, m)
      | Some rawSourceMap =>
          match new_consumer rawSourceMap with
          | None => (false, m)
          | Some consumer => (true, install scriptId None consumer m)
          end
      end
  end.

Definition resolveSourceMapUrl (scriptUrl sourceMapUrl : string)
    : string :=
  if Js.startsWith sourceMapUrl "http://"
     || Js.startsWith sourceMapUrl "https://"
     || Js.startsWith sourceMapUrl "file://"
  then sourceMapUrl
  else if Js.startsWith sourceMapUrl "data:" then sourceMapUrl
  else match URL_resolve sourceMapUrl scriptUrl with
       | Some u => u
       | None =>
           let baseDir :=
             String.substring 0 (Js.after_last "/"%char scriptUrl)
               scriptUrl in
           baseDir +:+ sourceMapUrl
       end.

(** [loadSourceMap(scriptInfo, fetchSourceMap)], on the two fields of
    the script it reads. *)
Definition loadSourceMap (scriptId url : string)
    (sourceMapUrl : option string)
    (fetchSourceMap : string -> option string) (m : t) : bool * t :=
  match sourceMapUrl with
  | None => (false, m)
  | Some sm =>
      if negb (Js.truthy sm) then (false, m) else
      let resolved := resolveSourceMapUrl url sm in
      match fetchSourceMap resolved with
      | None => (false, m)
      | Some sourceMapContent =>
          if negb (Js.truthy sourceMapContent) then (false, m) else
          match JSON_parse sourceMapContent with
          | None => (false, m)
          | Some rawSourceMap =>
              match new_consumer rawSourceMap with
              | None => (false, m)
              | Some consumer =>
                  (true, install scriptId (Some resolved) consumer m)
              end
          end
      end
  end.

End Loading.

Definition getOriginalLocation (m : t) (scriptId : string)
    (line column : Z) : option OriginalLocation :=
  match consumers m !! scriptId with
  | None => None
  | Some consumer =>
      let original := originalPositionFor consumer line column in
      match mp_source original with
      | Some src =>
          if Js.truthy src
          then Some {| source := src; line := mp_line original;
                       column := mp_column original;
                       name := mp_name original |}
          else None
      | None => None
      end
  end.

Definition getOriginalSource (m : t) (scriptId sourceUrl : string)
    : option string :=
  match consumers m !! scriptId with
  | None => None
  | Some consumer => sourceContentFor consumer sourceUrl
  end.

Definition getOriginalSources (m : t) (scriptId : string)
    : option (list string) :=
  originalSources m !! scriptId.

Definition hasSourceMap (m : t) (scriptId : string) : bool :=
  bool_decide (is_Some (consumers m !! scriptId)).

Definition getSourceMapUrl (m : t) (scriptId : string) : option string :=
  sourceMapUrls m !! scriptId.

Definition clear (m : t) : t := empty.

End SourceMapManager.

(** ** Protocol values (the [devtools-protocol] types the managers read) *)

Module Protocol.

(** A JSON value carried by a remote object ([value?: any]). *)
Inductive JsValue :=
| JNull
| JBool (b : bool)
| JNum (n : Z)
| JStr (s : string)
| JOther (json : string).

(** [Runtime.RemoteObject].  [ro_value = Some v] when the object has a
    [value] key. *)
Record RemoteObject := {
  ro_type : string;
  ro_className : option string;
  ro_value : option JsValue;
  ro_unserializableValue : option string;
  ro_description : option string;
  ro_objectId : option string;
}.

(** [Runtime.CallArgument]; [{}] is [empty_argument]. *)
Record CallArgument := {
  ca_value : option JsValue;
  ca_unserializableValue : option string;
  ca_objectId : option string;
}.

Definition empty_argument : CallArgument :=
  {| ca_value := None; ca_unserializableValue := None;
     ca_objectId := None |}.

Record ExceptionDetails := {
  ex_text : string;
  ex_lineNumber : Z;
  ex_columnNumber : Z;
}.

(** The reply to [Debugger.evaluateOnCallFrame] and [Runtime.evaluate]. *)
Record EvaluateResponse := {
  ev_result : RemoteObject;
  ev_exceptionDetails : option ExceptionDetails;
}.

(** [Debugger.Location]: the column is optional on the wire. *)
Record Location := {
  loc_scriptId : string;
  loc_lineNumber : Z;
  loc_columnNumber : option Z;
}.

Record Scope := {
  sc_type : string;
  sc_object : RemoteObject;
  sc_name : option string;
}.

(** [Debugger.CallFrame]. *)
Record CallFrame := {
  cf_callFrameId : string;
  cf_functionName : string;
  cf_location : Location;
  cf_scopeChain : list Scope;
  cf_this : RemoteObject;
}.

(** [Runtime.PropertyDescriptor]: an accessor property has [get] or
    [set] and no [value]. *)
Record PropertyDescriptor := {
  pd_name : string;
  pd_value : option RemoteObject;
  pd_writable : option bool;
  pd_get : option RemoteObject;
  pd_set : option RemoteObject;
  pd_configurable : bool;
  pd_enumerable : bool;
}.

(** The reply to [Debugger.setBreakpointByUrl]. *)
Record SetBreakpointByUrlResponse := {
  sb_breakpointId : string;
  sb_locations : list Location;
}.

(** The parameters of [Debugger.paused]; [PausedState] has the same
    fields. *)
Record PausedState := {
  ps_reason : string;
  ps_callFrames : list CallFrame;
  ps_asyncStackTrace : option string;
  ps_data : option JsValue;
  ps_hitBreakpoints : option (list string);
}.

(** [ScriptInfo], also the parameters of [Debugger.scriptParsed]
    (whose [sourceMapURL] is the field [sourceMapUrl] here). *)
Record ScriptInfo := {
  si_scriptId : string;
  si_url : string;
  si_sourceMapUrl : option string;
  si_startLine : Z;
  si_startColumn : Z;
  si_endLine : Z;
  si_endColumn : Z;
  si_hash : string;
}.

(** The notifications a client forwards to its session. *)
Inductive Event :=
| Paused (params : PausedState)
| Resumed
| ScriptParsed (params : ScriptInfo)
| BreakpointResolved (breakpointId : string) (location : Location)
| Disconnected.

(** [x ?? 0]. *)
Definition or_zero (x : option Z) : Z := default 0 x.

End Protocol.

(** ** Session manager over the CDP client ([src/session-manager.ts]) *)

Module SessionManager.
Import Protocol.

Inductive SessionState :=
| CONNECTING | CONNECTED | PAUSED | RUNNING | DISCONNECTED.

Inductive ErrorCode :=
| SESSION_NOT_FOUND | SESSION_INVALID_STATE | CONNECTION_FAILED
| PROTOCOL_ERROR | INVALID_PARAMETERS | TIMEOUT | BREAKPOINT_NOT_FOUND
| SCRIPT_NOT_FOUND | SOURCE_MAP_ERROR.

Global Instance SessionState_eq_dec : EqDecision SessionState.
Proof. solve_decision. Defined.
Global Instance ErrorCode_eq_dec : EqDecision ErrorCode.
Proof. solve_decision. Defined.

(** A thrown [Error]: those made by [createError] carry a code, those
    thrown by the CDP library do not. *)
Record Error := {
  code : option ErrorCode;
  message : string;
}.

Definition createError (c : ErrorCode) (msg : string) : Error :=
  {| code := Some c; message := msg |}.

Definition library_error (msg : string) : Error :=
  {| code := None; message := msg |}.

Record ResolvedLocation := {
  rl_scriptId : string;
  rl_lineNumber : Z;
  rl_columnNumber : Z;
}.

Record BreakpointInfo := {
  bp_id : string;
  bp_url : string;
  bp_lineNumber : Z;
  bp_columnNumber : option Z;
  bp_condition : option string;
  bp_enabled : bool;
  bp_resolvedLocations : list ResolvedLocation;
}.

(** The methods of [CDPClient] that reach the target, with their
    arguments. *)
Inductive Command :=
| Connect (target : string)
| Close
| SetBreakpointByUrl (url : string) (lineNumber : Z)
    (columnNumber : option Z) (condition : option string)
| RemoveBreakpoint (breakpointId : string)
| Resume
| Pause
| StepOver
| StepInto
| StepOut
| RunIfWaitingForDebugger
| EvaluateOnCallFrame (callFrameId expression : string)
    (returnByValue : bool)
| Evaluate (expression : string) (returnByValue : bool)
| GetProperties (objectId : string)
| SetVariableValue (scopeNumber : Z) (variableName : string)
    (newValue : CallArgument) (callFrameId : string)
| SetPauseOnExceptions (state : string)
| GetScriptSource (scriptId : string).

(** The [CDPClient] of a session: its script cache, its [connected]
    flag, and the calls that reached the target, oldest first. *)
Record CDPClient := {
  scripts : gmap string ScriptInfo;
  connected : bool;
  calls : list Command;
}.

Record ManagedSession := {
  id : string;
  name : option string;
  targetUrl : string;
  state : SessionState;
  cdpClient : CDPClient;
  sourceMapManager : SourceMapManager.t;
  breakpoints : gmap string BreakpointInfo;
  pausedState : option PausedState;
}.

Definition set_state (st : SessionState) (s : ManagedSession) :=
  {| id := id s; name := name s; targetUrl := targetUrl s; state := st;
     cdpClient := cdpClient s; sourceMapManager := sourceMapManager s;
     breakpoints := breakpoints s; pausedState := pausedState s |}.

Definition set_pausedState (p : option PausedState) (s : ManagedSession) :=
  {| id := id s; name := name s; targetUrl := targetUrl s;
     state := state s; cdpClient := cdpClient s;
     sourceMapManager := sourceMapManager s;
     breakpoints := breakpoints s; pausedState := p |}.

Definition set_breakpoints (b : gmap string BreakpointInfo)
    (s : ManagedSession) :=
  {| id := id s; name := name s; targetUrl := targetUrl s;
     state := state s; cdpClient := cdpClient s;
     sourceMapManager := sourceMapManager s;
     breakpoints := b; pausedState := pausedState s |}.

Definition set_cdpClient (c : CDPClient) (s : ManagedSession) :=
  {| id := id s; name := name s; targetUrl := targetUrl s;
     state := state s; cdpClient := c;
     sourceMapManager := sourceMapManager s;
     breakpoints := breakpoints s; pausedState := pausedState s |}.

Definition set_sourceMapManager (m : SourceMapManager.t)
    (s : ManagedSession) :=
  {| id := id s; name := name s; targetUrl := targetUrl s;
     state := state s; cdpClient := cdpClient s;
     sourceMapManager := m;
     breakpoints := breakpoints s; pausedState := pausedState s |}.

(** The manager: [this.sessions].  The optional callbacks registered
    with [on] are not modelled. *)
Record t := {
  sessions : gmap string ManagedSession;
}.

Definition empty : t := {| sessions := ∅ |}.

Abbreviation Op := (M t Error).

(** The location an enriched frame or [getOriginalLocation] reports.
    [or_name] is the field [functionName] of an enriched frame and the
    field [name] of [getOriginalLocation]. *)
Record Original := {
  or_sourceUrl : string;
  or_lineNumber : Z;
  or_columnNumber : Z;
  or_name : option string;
}.


Record OriginalLocationResult := {
  hasSourceMap : bool;
  original : option Original;
}.

Record ScriptEntry := {
  se_scriptId : string;
  se_url : string;
  se_sourceMapUrl : option string;
  se_originalSources : option (list string);
  se_isInternal : bool;
}.

Section Operations.
Context `{Platform}.

(** *** Event handlers ([setupSessionEventHandlers]) *)

Definition on_paused (params : PausedState) (session : ManagedSession)
    : ManagedSession :=
  let session := set_state PAUSED session in
  let pausedState :=
    {| ps_reason := ps_reason params;
       ps_callFrames := ps_callFrames params;
       ps_asyncStackTrace := ps_asyncStackTrace params;
       ps_data := ps_data params;
       ps_hitBreakpoints := ps_hitBreakpoints params |} in
  set_pausedState (Some pausedState) session.

Definition on_resumed (session : ManagedSession) : ManagedSession :=
  let session := set_state RUNNING session in
  set_pausedState None session.

(** The client caches the script ([CDPClient.setupEventHandlers]);
    the session then loads the source map the script refers to. *)
Definition on_scriptParsed (params : ScriptInfo)
    (session : ManagedSession) : ManagedSession :=
  let client := cdpClient session in
  let session :=
    set_cdpClient
      {| scripts := <[si_scriptId params := params]> (scripts client);
         connected := connected client; calls := calls client |}
      session in
  match si_sourceMapUrl params with
  | Some sourceMapURL =>
      if Js.truthy sourceMapURL then
        if Js.startsWith sourceMapURL "data:" then
          set_sourceMapManager
            (SourceMapManager.loadInlineSourceMap
               (si_scriptId params) sourceMapURL
               (sourceMapManager session)).2
            session
        else
          set_sourceMapManager
            (SourceMapManager.loadSourceMap
               (si_scriptId params) (si_url params)
               (si_sourceMapUrl params) fetch_text
               (sourceMapManager session)).2
            session
      else session
  | None => session
  end.

Definition on_breakpointResolved (breakpointId : string)
    (location : Location) (session : ManagedSession)
    : ManagedSession :=
  match breakpoints session !! breakpointId with
  | Some breakpoint =>
      let pushed :=
        {| bp_id := bp_id breakpoint; bp_url := bp_url breakpoint;
           bp_lineNumber := bp_lineNumber breakpoint;
           bp_columnNumber := bp_columnNumber breakpoint;
           bp_condition := bp_condition breakpoint;
           bp_enabled := bp_enabled breakpoint;
           bp_resolvedLocations :=
             bp_resolvedLocations breakpoint ++
             [ {| rl_scriptId := loc_scriptId location;
                  rl_lineNumber := loc_lineNumber location;
                  rl_columnNumber :=
                    or_zero (loc_columnNumber location) |} ] |} in
      set_breakpoints (<[breakpointId := pushed]> (breakpoints session))
        session
  | None => session
  end.

Definition on_disconnected (session : ManagedSession)
    : ManagedSession :=
  let client := cdpClient session in
  let session :=
    set_cdpClient
      {| scripts := scripts client; connected := false;
         calls := calls client |}
      session in
  let session := set_state DISCONNECTED session in
  set_pausedState None session.

Definition handle (e : Event) (session : ManagedSession)
    : ManagedSession :=
  match e with
  | Paused params => on_paused params session
  | Resumed => on_resumed session
  | ScriptParsed params => on_scriptParsed params session
  | BreakpointResolved breakpointId location =>
      on_breakpointResolved breakpointId location session
  | Disconnected => on_disconnected session
  end.

Definition handle_all (es : list Event) (session : ManagedSession)
    : ManagedSession :=
  foldl (fun s e => handle e s) session es.

(** A notification reaches the session object; only an installed
    session is observable through the manager. *)
Definition deliver (sessionId : string) (e : Event) (m : t) : t :=
  {| sessions := alter (handle e) sessionId (sessions m) |}.

(** *** Private helpers *)

Definition getSession (sessionId : string) : Op ManagedSession :=
  fun m =>
    match sessions m !! sessionId with
    | Some session => (Ok session, m)
    | None =>
        (Throw (createError SESSION_NOT_FOUND
                  ("Session " +:+ sessionId +:+ " not found")), m)
    end.

Definition update (sessionId : string)
    (f : ManagedSession -> ManagedSession) : Op unit :=
  modify (fun m => {| sessions := alter f sessionId (sessions m) |}).

Definition ensurePaused (session : ManagedSession) : Op unit :=
  if bool_decide (state session ≠ PAUSED)
     || negb (bool_decide (is_Some (pausedState session)))
  then throw (createError SESSION_INVALID_STATE
                ("Session " +:+ id session +:+ " is not paused"))
  else mret tt.

Definition ensureRunning (session : ManagedSession) : Op unit :=
  if bool_decide (state session ≠ RUNNING)
     && bool_decide (state session ≠ CONNECTED)
  then throw (createError SESSION_INVALID_STATE
                ("Session " +:+ id session +:+ " is not running"))
  else mret tt.

Definition log (cmd : Command) (session : ManagedSession)
    : ManagedSession :=
  let client := cdpClient session in
  set_cdpClient
    {| scripts := scripts client; connected := connected client;
       calls := calls client ++ [cmd] |}
    session.

(** A method of the [CDPClient] of [session], the session found under
    [sessionId]: [ensureConnected], then the command goes to the
    target; the notifications [during] arrive while the reply is
    awaited; the promise settles with [reply]. *)
Definition call {A} (sessionId : string) (session : ManagedSession)
    (cmd : Command) (during : list Event) (reply : Outcome Error A)
    : Op A :=
  if connected (cdpClient session) then
    update sessionId (log cmd);;
    update sessionId (handle_all during);;
    await reply
  else throw (library_error "Not connected to CDP endpoint").

(** *** Operations *)

Definition new_session (sessionId : string) (name : option string)
    (targetUrl : string) : ManagedSession :=
  {| id := sessionId; name := name; targetUrl := targetUrl;
     state := CONNECTING;
     cdpClient := {| scripts := ∅; connected := false; calls := [] |};
     sourceMapManager := SourceMapManager.empty;
     breakpoints := ∅; pausedState := None |}.

(** [createSession].  [sessionId] is the result of [uuidv4()];
    [handshake] is the outcome of [cdpClient.connect(targetUrl)], a
    failure carrying the message of the error; [during] are the
    notifications received while the handshake is awaited (the
    handlers are registered before it starts). *)
Definition createSession (targetUrl : string) (name : option string)
    (sessionId : string) (during : list Event)
    (handshake : Outcome string unit) : Op string :=
  let session := new_session sessionId name targetUrl in
  match handshake with
  | Ok _ =>
      let client :=
        {| scripts := ∅; connected := true;
           calls := [Connect targetUrl] |} in
      let session := set_cdpClient client session in
      let session := handle_all during session in
      let session := set_state CONNECTED session in
      modify (fun m =>
                {| sessions := <[sessionId := session]> (sessions m) |});;
      mret sessionId
  | Throw msg =>
      throw (createError CONNECTION_FAILED
               ("Failed to connect to " +:+ targetUrl +:+ ": " +:+ msg))
  end.

Definition destroySession (sessionId : string)
    (closed : Outcome Error unit) : Op unit :=
  session ← getSession sessionId;
  try_catch (await closed) (fun _ => mret tt);;
  update sessionId
    (fun s => set_sourceMapManager
                (SourceMapManager.clear (sourceMapManager s)) s);;
  modify (fun m => {| sessions := delete sessionId (sessions m) |}).

Definition setBreakpoint (sessionId url : string) (lineNumber : Z)
    (columnNumber : option Z) (condition : option string)
    (reply : Outcome Error SetBreakpointByUrlResponse)
    : Op BreakpointInfo :=
  session ← getSession sessionId;
  response ← call sessionId session
    (SetBreakpointByUrl url lineNumber columnNumber condition) [] reply;
  let breakpointInfo :=
    {| bp_id := sb_breakpointId response; bp_url := url;
       bp_lineNumber := lineNumber; bp_columnNumber := columnNumber;
       bp_condition := condition; bp_enabled := true;
       bp_resolvedLocations :=
         (fun loc =>
            {| rl_scriptId := loc_scriptId loc;
               rl_lineNumber := loc_lineNumber loc;
               rl_columnNumber := or_zero (loc_columnNumber loc) |})
         <$> sb_locations response |} in
  update sessionId
    (fun s => set_breakpoints
                (<[sb_breakpointId response := breakpointInfo]>
                   (breakpoints s)) s);;
  mret breakpointInfo.

Definition removeBreakpoint (sessionId breakpointId : string)
    (reply : Outcome Error unit) : Op unit :=
  session ← getSession sessionId;
  if negb (bool_decide (is_Some (breakpoints session !! breakpointId)))
  then throw (createError BREAKPOINT_NOT_FOUND
                ("Breakpoint " +:+ breakpointId +:+ " not found"))
  else
    call sessionId session (RemoveBreakpoint breakpointId) [] reply;;
    update sessionId
      (fun s => set_breakpoints (delete breakpointId (breakpoints s)) s).

(** [Array.from(session.breakpoints.values())], in the order of the
    table's keys rather than of insertion. *)
Definition listBreakpoints (sessionId : string)
    : Op (list BreakpointInfo) :=
  session ← getSession sessionId;
  mret ((map_to_list (breakpoints session)).*2).

Definition resume (sessionId : string) (during : list Event)
    (reply : Outcome Error unit) : Op unit :=
  session ← getSession sessionId;
  match state session with
  | PAUSED => call sessionId session Resume during reply
  | CONNECTED =>
      call sessionId session RunIfWaitingForDebugger during reply;;
      update sessionId (set_state RUNNING)
  | _ =>
      throw (createError SESSION_INVALID_STATE
               ("Session " +:+ id session +:+
                " is not paused or waiting for debugger"))
  end.

Definition pause (sessionId : string) (reply : Outcome Error unit)
    : Op unit :=
  session ← getSession sessionId;
  ensureRunning session;;
  call sessionId session Pause [] reply.

Definition step (cmd : Command) (sessionId : string)
    (reply : Outcome Error unit) : Op unit :=
  session ← getSession sessionId;
  ensurePaused session;;
  call sessionId session cmd [] reply.

Definition stepOver := step StepOver.
Definition stepInto := step StepInto.
Definition stepOut := step StepOut.

End Operations.

Section Inspection.
Context `{Platform}.




Definition evaluate (sessionId expression : string)
    (callFrameId : option string) (returnByValue : bool)
    (reply : Outcome Error EvaluateResponse) : Op EvaluateResponse :=
  session ← getSession sessionId;
  match callFrameId with
  | Some frameId =>
      if Js.truthy frameId then
        ensurePaused session;;
        response ← call sessionId session
          (EvaluateOnCallFrame frameId expression returnByValue) []
          reply;
        mret {| ev_result := ev_result response;
                ev_exceptionDetails := ev_exceptionDetails response |}
      else
        response ← call sessionId session (Evaluate expression returnByValue) []
          reply;
        mret {| ev_result := ev_result response;
                ev_exceptionDetails := ev_exceptionDetails response |}
  | None =>
      response ← call sessionId session (Evaluate expression returnByValue) []
        reply;
      mret {| ev_result := ev_result response;
              ev_exceptionDetails := ev_exceptionDetails response |}
  end.

(** [getScopeVariables]; [reply] is the reply to
    [Runtime.getProperties], whose [result] array it carries. *)
Definition getScopeVariables (sessionId callFrameId : string)
    (scopeIndex : Z) (reply : Outcome Error (list PropertyDescriptor))
    : Op (list PropertyDescriptor) :=
  session ← getSession sessionId;
  ensurePaused session;;
  let callFrame :=
    pausedState session ≫= fun paused =>
      Js.find (fun f => bool_decide (cf_callFrameId f = callFrameId))
        (ps_callFrames paused) in
  match callFrame with
  | None =>
      throw (createError INVALID_PARAMETERS
               ("Call frame " +:+ callFrameId +:+ " not found"))
  | Some callFrame =>
      let scope := Js.index (cf_scopeChain callFrame) scopeIndex in
      match scope ≫= fun sc => ro_objectId (sc_object sc) with
      | Some objectId =>
          if Js.truthy objectId then
            response ← call sessionId session (GetProperties objectId) [] reply;
            mret response
          else
            throw (createError INVALID_PARAMETERS
                     ("Scope at index " +:+ pretty scopeIndex +:+
                      " not found or has no object ID"))
      | None =>
          throw (createError INVALID_PARAMETERS
                   ("Scope at index " +:+ pretty scopeIndex +:+
                    " not found or has no object ID"))
      end
  end.

(** The [CallArgument] that [setVariableValue] builds from the
    evaluated remote object. *)
Definition callArgument_of (result : RemoteObject) : CallArgument :=
  if Js.truthy_opt (ro_objectId result) then
    {| ca_value := None; ca_unserializableValue := None;
       ca_objectId := ro_objectId result |}
  else if bool_decide (is_Some (ro_value result)) then
    {| ca_value := ro_value result; ca_unserializableValue := None;
       ca_objectId := None |}
  else if Js.truthy_opt (ro_unserializableValue result) then
    {| ca_value := None;
       ca_unserializableValue := ro_unserializableValue result;
       ca_objectId := None |}
  else empty_argument.

(** [setVariableValue]; [evalReply] is the reply to the evaluation and
    [setReply] the reply to [Debugger.setVariableValue]. *)
Definition setVariableValue (sessionId callFrameId : string)
    (scopeIndex : Z) (variableName newValue : string)
    (evalReply : Outcome Error EvaluateResponse)
    (setReply : Outcome Error unit) : Op unit :=
  session ← getSession sessionId;
  ensurePaused session;;
  evalResult ← call sessionId session
    (EvaluateOnCallFrame callFrameId newValue false) [] evalReply;
  match ev_exceptionDetails evalResult with
  | Some exceptionDetails =>
      throw (createError PROTOCOL_ERROR
               ("Failed to evaluate new value: " +:+
                ex_text exceptionDetails))
  | None =>
      let callArgument := callArgument_of (ev_result evalResult) in
      call sessionId session
        (SetVariableValue scopeIndex variableName callArgument
           callFrameId) [] setReply
  end.

Definition setPauseOnExceptions (sessionId state : string)
    (reply : Outcome Error unit) : Op unit :=
  session ← getSession sessionId;
  call sessionId session (SetPauseOnExceptions state) [] reply.

(** [getOriginalLocation]: [lineNumber] is 1-based, [columnNumber]
    0-based. *)
Definition getOriginalLocation (sessionId scriptId : string)
    (lineNumber columnNumber : Z) : Op OriginalLocationResult :=
  session ← getSession sessionId;
  if negb (SourceMapManager.hasSourceMap (sourceMapManager session)
             scriptId)
  then mret {| hasSourceMap := false; original := None |}
  else
    match SourceMapManager.getOriginalLocation
            (sourceMapManager session) scriptId lineNumber columnNumber
    with
    | None => mret {| hasSourceMap := true; original := None |}
    | Some o =>
        mret {| hasSourceMap := true;
                original :=
                  Some {| or_sourceUrl := SourceMapManager.source o;
                          or_lineNumber :=
                            or_zero (SourceMapManager.line o);
                          or_columnNumber :=
                            or_zero (SourceMapManager.column o);
                          or_name := SourceMapManager.name o |} |}
    end.

(** The predicate of the filter of [listScripts]. *)
Definition filter_isInternal (script : ScriptInfo) : bool :=
  Js.includes (si_url script) "node_modules"
  || Js.startsWith (si_url script) "node:"
  || Js.startsWith (si_url script) "internal/"
  || negb (Js.truthy (si_url script)).

(** The [isInternal] flag of an entry of [listScripts]. *)
Definition flag_isInternal (script : ScriptInfo) : bool :=
  Js.includes (si_url script) "node_modules"
  || Js.startsWith (si_url script) "node:"
  || Js.startsWith (si_url script) "internal/".

Definition listScripts (sessionId : string) (includeInternal : bool)
    : Op (list ScriptEntry) :=
  session ← getSession sessionId;
  let scripts := (map_to_list (scripts (cdpClient session))).*2 in
  mret
    ((fun script =>
        {| se_scriptId := si_scriptId script;
           se_url := si_url script;
           se_sourceMapUrl := si_sourceMapUrl script;
           se_originalSources :=
             SourceMapManager.getOriginalSources
               (sourceMapManager session) (si_scriptId script);
           se_isInternal := flag_isInternal script |})
     <$> List.filter
           (fun script =>
              if includeInternal then true
              else negb (filter_isInternal script))
           scripts).

End Inspection.

(** *** Runs of the manager

    What can happen to a manager: a notification reaches a session, or
    a client of the manager calls one of its methods and the target
    answers. *)
Inductive Action :=
| Deliver (sessionId : string) (e : Event)
| CreateSession (targetUrl : string) (name : option string)
    (sessionId : string) (during : list Event)
    (handshake : Outcome string unit)
| DestroySession (sessionId : string) (closed : Outcome Error unit)
| SetBreakpoint (sessionId url : string) (lineNumber : Z)
    (columnNumber : option Z) (condition : option string)
    (reply : Outcome Error SetBreakpointByUrlResponse)
| RemoveBreakpointOf (sessionId breakpointId : string)
    (reply : Outcome Error unit)
| ResumeSession (sessionId : string) (during : list Event)
    (reply : Outcome Error unit)
| PauseSession (sessionId : string) (reply : Outcome Error unit)
| Step (cmd : Command) (sessionId : string) (reply : Outcome Error unit)
| EvaluateIn (sessionId expression : string)
    (callFrameId : option string) (returnByValue : bool)
    (reply : Outcome Error EvaluateResponse)
| GetScopeVariables (sessionId callFrameId : string) (scopeIndex : Z)
    (reply : Outcome Error (list PropertyDescriptor))
| SetVariable (sessionId callFrameId : string) (scopeIndex : Z)
    (variableName newValue : string)
    (evalReply : Outcome Error EvaluateResponse)
    (setReply : Outcome Error unit)
| SetPauseOnExceptionsOf (sessionId state : string)
    (reply : Outcome Error unit).

Section Runs.
Context `{Platform}.

Definition exec (a : Action) (m : t) : t :=
  match a with
  | Deliver sessionId e => deliver sessionId e m
  | CreateSession targetUrl name sessionId during handshake =>
      (createSession targetUrl name sessionId during handshake m).2
  | DestroySession sessionId closed =>
      (destroySession sessionId closed m).2
  | SetBreakpoint sessionId url lineNumber columnNumber condition
      reply =>
      (setBreakpoint sessionId url lineNumber columnNumber condition
         reply m).2
  | RemoveBreakpointOf sessionId breakpointId reply =>
      (removeBreakpoint sessionId breakpointId reply m).2
  | ResumeSession sessionId during reply =>
      (resume sessionId during reply m).2
  | PauseSession sessionId reply => (pause sessionId reply m).2
  | Step cmd sessionId reply => (step cmd sessionId reply m).2
  | EvaluateIn sessionId expression callFrameId returnByValue reply =>
      (evaluate sessionId expression callFrameId returnByValue reply
         m).2
  | GetScopeVariables sessionId callFrameId scopeIndex reply =>
      (getScopeVariables sessionId callFrameId scopeIndex reply m).2
  | SetVariable sessionId callFrameId scopeIndex variableName newValue
      evalReply setReply =>
      (setVariableValue sessionId callFrameId scopeIndex variableName
         newValue evalReply setReply m).2
  | SetPauseOnExceptionsOf sessionId state reply =>
      (setPauseOnExceptions sessionId state reply m).2
  end.

Definition run (actions : list Action) (m : t) : t :=
  foldl (fun m a => exec a m) m actions.

End Runs.

(** The notifications that install a paused snapshot. *)
Definition is_paused_event (e : Event) : bool :=
  match e with Paused _ => true | _ => false end.

(** An action is quiet when no [paused] notification arrives while
    [createSession] or [resume] awaits. *)
Definition quiet (a : Action) : bool :=
  match a with
  | CreateSession _ _ _ during _ =>
      forallb (fun e => negb (is_paused_event e)) during
  | ResumeSession _ during _ =>
      forallb (fun e => negb (is_paused_event e)) during
  | _ => true
  end.


End SessionManager.

(** ** Session manager over the WebSocket client

    The class [SessionManager] that is constructed from a [ServerConfig],
    with the types and the default configuration of its [types] module. *)

Module WsSessionManager.

Inductive SessionState :=
| CONNECTING | CONNECTED | PAUSED | RUNNING | DISCONNECTED.

Inductive ErrorCode :=
| SESSION_NOT_FOUND | SESSION_INVALID_STATE | CONNECTION_FAILED
| PROTOCOL_ERROR | INVALID_PARAMETERS | TIMEOUT | MAX_SESSIONS_REACHED.

Global Instance SessionState_eq_dec : EqDecision SessionState.
Proof. solve_decision. Defined.
Global Instance ErrorCode_eq_dec : EqDecision ErrorCode.
Proof. solve_decision. Defined.

(** The value of the string enum [SessionState]. *)
Definition state_name (st : SessionState) : string :=
  match st with
  | CONNECTING => "connecting"
  | CONNECTED => "connected"
  | PAUSED => "paused"
  | RUNNING => "running"
  | DISCONNECTED => "disconnected"
  end.

(** A [DebuggerError]. *)
Record DebuggerError := {
  code : ErrorCode;
  message : string;
}.

Record RemoteObject := {
  ro_type : string;
  ro_className : option string;
  ro_value : option Protocol.JsValue;
  ro_description : option string;
  ro_objectId : option string;
}.

Record BreakpointLocation := {
  bl_scriptId : string;
  bl_lineNumber : Z;
  bl_columnNumber : Z;
}.

Record BreakpointInfo := {
  bp_id : string;
  bp_url : string;
  bp_lineNumber : Z;
  bp_columnNumber : option Z;
  bp_condition : option string;
  bp_enabled : bool;
  bp_locations : list BreakpointLocation;
}.

Record Scope := {
  sc_type : string;
  sc_object : RemoteObject;
  sc_name : option string;
}.

Record CallFrame := {
  cf_callFrameId : string;
  cf_functionName : string;
  cf_scriptId : string;
  cf_url : string;
  cf_lineNumber : Z;
  cf_columnNumber : Z;
  cf_thisObject : RemoteObject;
  cf_scopeChain : list Scope;
}.

Record PausedState := {
  ps_reason : string;
  ps_callFrames : list CallFrame;
  ps_asyncStackTrace : option string;
  ps_data : option Protocol.JsValue;
}.

Record ScriptInfo := {
  si_scriptId : string;
  si_url : string;
  si_startLine : Z;
  si_startColumn : Z;
  si_endLine : Z;
  si_endColumn : Z;
  si_sourceMapURL : option string;
}.

(** [DebuggerEvent]. *)
Inductive DebuggerEvent :=
| paused (data : PausedState)
| resumed
| scriptParsed (data : ScriptInfo)
| breakpointResolved (breakpointId : string)
    (location : BreakpointLocation)
| disconnected (reason : option string).

(** The fields of [ServerConfig] that the manager reads. *)
Record ServerConfig := {
  connectionTimeout : Z;
  commandTimeout : Z;
  reconnectAttempts : Z;
  reconnectDelay : Z;
  allowedHosts : list string;
  requireConfirmationForRemote : bool;
  maxConcurrentSessions : Z;
  sessionIdleTimeout : Z;
}.

Definition DEFAULT_CONFIG : ServerConfig :=
  {| connectionTimeout := 10000;
     commandTimeout := 5000;
     reconnectAttempts := 3;
     reconnectDelay := 1000;
     allowedHosts := ["localhost"; "127.0.0.1"; "::1"];
     requireConfirmationForRemote := true;
     maxConcurrentSessions := 10;
     sessionIdleTimeout := 3600000 |}.

(** The commands the manager sends with [sendCommand], with their
    parameters. *)
Inductive Command :=
| DebuggerEnable
| DebuggerDisable
| SetBreakpointByUrl (lineNumber : Z) (url : string)
    (columnNumber : option Z) (condition : option string)
    (ignoreCount : option Z)
| RemoveBreakpoint (breakpointId : string)
| Resume
| StepOver
| StepInto
| StepOut
| Pause
| EvaluateOnCallFrame (callFrameId expression : string)
    (returnByValue : bool)
| RuntimeEvaluate (expression : string) (returnByValue : bool)
| GetProperties (objectId : string) (ownProperties : bool)
| SetVariableValue (scopeNumber : Z) (variableName : string)
    (newValue_value : option Protocol.JsValue) (callFrameId : string)
| SetPauseOnExceptions (state : string).

(** The [method] of the message a command is sent as. *)
Definition method (c : Command) : string :=
  match c with
  | DebuggerEnable => "Debugger.enable"
  | DebuggerDisable => "Debugger.disable"
  | SetBreakpointByUrl _ _ _ _ _ => "Debugger.setBreakpointByUrl"
  | RemoveBreakpoint _ => "Debugger.removeBreakpoint"
  | Resume => "Debugger.resume"
  | StepOver => "Debugger.stepOver"
  | StepInto => "Debugger.stepInto"
  | StepOut => "Debugger.stepOut"
  | Pause => "Debugger.pause"
  | EvaluateOnCallFrame _ _ _ => "Debugger.evaluateOnCallFrame"
  | RuntimeEvaluate _ _ => "Runtime.evaluate"
  | GetProperties _ _ => "Runtime.getProperties"
  | SetVariableValue _ _ _ _ => "Debugger.setVariableValue"
  | SetPauseOnExceptions _ => "Debugger.setPauseOnExceptions"
  end.

(** The [WebSocketClient] of a session: its [isConnected] flag and the
    commands it sent, oldest first. *)
Record WebSocketClient := {
  isConnected : bool;
  sent : list Command;
}.

(** [DebugSession]; the two timestamps are not modelled. *)
Record DebugSession := {
  id : string;
  name : option string;
  targetUrl : string;
  wsClient : WebSocketClient;
  state : SessionState;
  breakpoints : gmap string BreakpointInfo;
  scripts : gmap string ScriptInfo;
  pausedState : option PausedState;
}.

Definition set_state (st : SessionState) (s : DebugSession) :=
  {| id := id s; name := name s; targetUrl := targetUrl s;
     wsClient := wsClient s; state := st; breakpoints := breakpoints s;
     scripts := scripts s; pausedState := pausedState s |}.

Definition set_pausedState (p : option PausedState) (s : DebugSession) :=
  {| id := id s; name := name s; targetUrl := targetUrl s;
     wsClient := wsClient s; state := state s;
     breakpoints := breakpoints s; scripts := scripts s;
     pausedState := p |}.

Definition set_breakpoints (b : gmap string BreakpointInfo)
    (s : DebugSession) :=
  {| id := id s; name := name s; targetUrl := targetUrl s;
     wsClient := wsClient s; state := state s; breakpoints := b;
     scripts := scripts s; pausedState := pausedState s |}.

Definition set_scripts (sc : gmap string ScriptInfo) (s : DebugSession) :=
  {| id := id s; name := name s; targetUrl := targetUrl s;
     wsClient := wsClient s; state := state s;
     breakpoints := breakpoints s; scripts := sc;
     pausedState := pausedState s |}.

Definition set_wsClient (c : WebSocketClient) (s : DebugSession) :=
  {| id := id s; name := name s; targetUrl := targetUrl s;
     wsClient := c; state := state s; breakpoints := breakpoints s;
     scripts := scripts s; pausedState := pausedState s |}.

(** The manager: [this.sessions] and [this.config].  The listeners
    added with [addEventListener] and the logger are not modelled. *)
Record t := {
  sessions : gmap string DebugSession;
  config : ServerConfig;
}.

Definition set_sessions (ss : gmap string DebugSession) (m : t) : t :=
  {| sessions := ss; config := config m |}.

(** [new SessionManager(config)] for a complete configuration. *)
Definition create (cfg : ServerConfig) : t :=
  {| sessions := ∅; config := cfg |}.

Abbreviation Op := (M t DebuggerError).

Record SetBreakpointResult := {
  sr_breakpointId : string;
  sr_locations : list BreakpointLocation;
}.

(** An entry of the reply to [Runtime.getProperties], as the manager
    types it. *)
Record Property := {
  pr_name : string;
  pr_value : option RemoteObject;
}.

Record ScopeVariable := {
  sv_name : string;
  sv_value : RemoteObject;
}.

(** The double-quote character, for messages that quote a value. *)
Definition dq : string := String "034"%char EmptyString.

Section Operations.
Context `{Platform}.

(** [validateTargetUrl]. *)
Definition validateTargetUrl (url : string) : Op unit :=
  fun m =>
    match URL_parse url with
    | None =>
        (Throw {| code := INVALID_PARAMETERS;
                  message := "Invalid URL: " +:+ url |}, m)
    | Some parsed =>
        if negb (String.eqb (protocol parsed) "ws:")
           && negb (String.eqb (protocol parsed) "wss:")
        then
          (Throw {| code := INVALID_PARAMETERS;
                    message :=
                      "URL must use ws:// or wss:// scheme: " +:+ url |},
           m)
        else
          let hostname := hostname parsed in
          let isLocalhost :=
            Js.array_includes (allowedHosts (config m)) hostname in
          if negb isLocalhost
             && requireConfirmationForRemote (config m)
          then
            (Throw {| code := INVALID_PARAMETERS;
                      message :=
                        "Remote host " +:+ dq +:+ hostname +:+ dq +:+
                        " not in allowed hosts list. Add to configuration to allow." |},
             m)
          else (Ok tt, m)
    end.

(** [requireState]. *)
Definition requireState (session : DebugSession)
    (allowedStates : list SessionState) : Op unit :=
  if negb (bool_decide (state session ∈ allowedStates)) then
    throw {| code := SESSION_INVALID_STATE;
             message :=
               "Operation not allowed in state " +:+ dq +:+
               state_name (state session) +:+ dq +:+ ". Required: " +:+
               String.concat ", " (state_name <$> allowedStates) |}
  else mret tt.

Definition getSession (sessionId : string) : Op DebugSession :=
  fun m =>
    match sessions m !! sessionId with
    | Some session => (Ok session, m)
    | None =>
        (Throw {| code := SESSION_NOT_FOUND;
                  message := "Session not found: " +:+ sessionId |}, m)
    end.

Definition update (sessionId : string)
    (f : DebugSession -> DebugSession) : Op unit :=
  modify (fun m => set_sessions (alter f sessionId (sessions m)) m).

(** What [handleSessionEvent] does to the session object. *)
Definition on_event (event : DebuggerEvent) (session : DebugSession)
    : DebugSession :=
  match event with
  | paused data =>
      let session := set_state PAUSED session in
      set_pausedState (Some data) session
  | resumed =>
      let session := set_state RUNNING session in
      set_pausedState None session
  | scriptParsed data =>
      set_scripts (<[si_scriptId data := data]> (scripts session))
        session
  | breakpointResolved breakpointId location =>
      match breakpoints session !! breakpointId with
      | Some bp =>
          let bp :=
            {| bp_id := bp_id bp; bp_url := bp_url bp;
               bp_lineNumber := bp_lineNumber bp;
               bp_columnNumber := bp_columnNumber bp;
               bp_condition := bp_condition bp;
               bp_enabled := bp_enabled bp;
               bp_locations := [location] |} in
          set_breakpoints (<[breakpointId := bp]> (breakpoints session))
            session
      | None => session
      end
  | disconnected _ =>
      let session :=
        set_wsClient
          {| isConnected := false; sent := sent (wsClient session) |}
          session in
      set_state DISCONNECTED session
  end.

(** What [handleSessionEvent] does to the registry: a [disconnected]
    event deletes the entry of [session.id]. *)
Definition on_event_registry (session_id : string)
    (event : DebuggerEvent) (m : t) : t :=
  match event with
  | disconnected _ => set_sessions (delete session_id (sessions m)) m
  | _ => m
  end.

(** [handleSessionEvent] for the session object found under
    [sessionId]; an object that is not installed cannot be observed
    through the manager. *)
Definition handleSessionEvent (sessionId : string)
    (event : DebuggerEvent) (m : t) : t :=
  match sessions m !! sessionId with
  | Some session =>
      on_event_registry (id session) event
        (set_sessions
           (<[sessionId := on_event event session]> (sessions m)) m)
  | None => m
  end.

Definition log (cmd : Command) (session : DebugSession)
    : DebugSession :=
  set_wsClient
    {| isConnected := isConnected (wsClient session);
       sent := sent (wsClient session) ++ [cmd] |}
    session.

(** [session.wsClient.sendCommand(method, params)] for the session
    found under [sessionId]; [reply] is what the promise settles
    with. *)
Definition sendCommand {A} (sessionId : string)
    (session : DebugSession) (cmd : Command)
    (reply : Outcome DebuggerError A) : Op A :=
  if isConnected (wsClient session) then
    update sessionId (log cmd);;
    await reply
  else throw {| code := CONNECTION_FAILED;
                message := "Not connected to debugger" |}.

(** [connect].  [sessionId] is the result of [uuidv4()]; [handshake]
    is the outcome of [wsClient.connect()]; [during] are the events
    the listener receives while the handshake is awaited. *)
Definition connect (targetUrl : string) (sessionName : option string)
    (sessionId : string) (during : list DebuggerEvent)
    (handshake : Outcome DebuggerError unit) : Op DebugSession :=
  validateTargetUrl targetUrl;;
  size ← gets (fun m => Z.of_nat (size (sessions m)));
  max ← gets (fun m => maxConcurrentSessions (config m));
  if bool_decide (size >= max) then
    throw {| code := MAX_SESSIONS_REACHED;
             message :=
               "Maximum concurrent sessions (" +:+ pretty max +:+
               ") reached" |}
  else
    let session :=
      {| id := sessionId; name := sessionName; targetUrl := targetUrl;
         wsClient := {| isConnected := false; sent := [] |};
         state := CONNECTING; breakpoints := ∅; scripts := ∅;
         pausedState := None |} in
    let session := foldl (fun s e => on_event e s) session during in
    modify (fun m =>
              foldl (fun m e => on_event_registry sessionId e m) m
                during);;
    match handshake with
    | Ok _ =>
        let session :=
          set_wsClient
            {| isConnected := true; sent := [DebuggerEnable] |}
            session in
        let session := set_state CONNECTED session in
        modify (fun m =>
                  set_sessions (<[sessionId := session]> (sessions m))
                    m);;
        mret session
    | Throw error => throw error
    end.

(** [disconnect]; the client sends [Debugger.disable], ignores its
    failure, and closes the socket. *)
Definition disconnect (sessionId : string) : Op unit :=
  session ← getSession sessionId;
  try_catch
    (sendCommand sessionId session DebuggerDisable (Ok tt))
    (fun _ => mret tt);;
  update sessionId
    (fun s => set_wsClient
                {| isConnected := false; sent := sent (wsClient s) |}
                s);;
  update sessionId (set_state DISCONNECTED);;
  modify (fun m => set_sessions (delete sessionId (sessions m)) m).

Definition live : list SessionState := [CONNECTED; PAUSED; RUNNING].

Definition setBreakpoint (sessionId url : string) (lineNumber : Z)
    (columnNumber : option Z) (condition : option string)
    (ignoreCount : option Z)
    (reply : Outcome DebuggerError SetBreakpointResult)
    : Op SetBreakpointResult :=
  session ← getSession sessionId;
  requireState session live;;
  let cmd :=
    SetBreakpointByUrl lineNumber url columnNumber
      (condition ≫= fun c => if Js.truthy c then Some c else None)
      (ignoreCount ≫= fun n =>
         if bool_decide (n > 0) then Some n else None) in
  result ← sendCommand sessionId session cmd reply;
  let breakpointInfo :=
    {| bp_id := sr_breakpointId result; bp_url := url;
       bp_lineNumber := lineNumber; bp_columnNumber := columnNumber;
       bp_condition := condition; bp_enabled := true;
       bp_locations := sr_locations result |} in
  update sessionId
    (fun s => set_breakpoints
                (<[sr_breakpointId result := breakpointInfo]>
                   (breakpoints s)) s);;
  mret result.

Definition removeBreakpoint (sessionId breakpointId : string)
    (reply : Outcome DebuggerError unit) : Op unit :=
  session ← getSession sessionId;
  requireState session live;;
  sendCommand sessionId session (RemoveBreakpoint breakpointId) reply;;
  update sessionId
    (fun s => set_breakpoints (delete breakpointId (breakpoints s)) s).

Definition listBreakpoints (sessionId : string)
    : Op (list BreakpointInfo) :=
  session ← getSession sessionId;
  mret ((map_to_list (breakpoints session)).*2).

Definition resume (sessionId : string)
    (reply : Outcome DebuggerError unit) : Op unit :=
  session ← getSession sessionId;
  requireState session [PAUSED];;
  sendCommand sessionId session Resume reply.

(** [getScopeVariables]; [reply] is the reply to
    [Runtime.getProperties], whose [result] array it carries. *)
Definition getScopeVariables (sessionId callFrameId : string)
    (scopeIndex : Z) (reply : Outcome DebuggerError (list Property))
    : Op (list ScopeVariable) :=
  session ← getSession sessionId;
  requireState session [PAUSED];;
  match pausedState session with
  | None =>
      throw {| code := SESSION_INVALID_STATE;
               message :=
                 "Session is not paused; cannot retrieve scope variables" |}
  | Some pausedState =>
      match Js.find
              (fun f => bool_decide (cf_callFrameId f = callFrameId))
              (ps_callFrames pausedState) with
      | None =>
          throw {| code := INVALID_PARAMETERS;
                   message := "Call frame not found: " +:+ callFrameId |}
      | Some callFrame =>
          if bool_decide (scopeIndex < 0)
             || bool_decide
                  (scopeIndex >=
                   Z.of_nat (length (cf_scopeChain callFrame)))
          then
            throw {| code := INVALID_PARAMETERS;
                     message :=
                       "Invalid scope index: " +:+ pretty scopeIndex |}
          else
            match Js.index (cf_scopeChain callFrame) scopeIndex with
            | None => mret []
            | Some scope =>
                match ro_objectId (sc_object scope) with
                | Some objectId =>
                    if Js.truthy objectId then
                      result ← sendCommand sessionId session
                        (GetProperties objectId true) reply;
                      (* [filter] on a present value, then [map] *)
                      mret
                        (omap
                           (fun prop =>
                              match pr_value prop with
                              | Some value =>
                                  Some {| sv_name := pr_name prop;
                                          sv_value := value |}
                              | None => None
                              end)
                           result)
                    else mret []
                | None => mret []
                end
            end
      end
  end.

(** [setVariableValue]; [evalReply] is the reply to the evaluation
    (its [result]) and [setReply] the reply to
    [Debugger.setVariableValue]. *)
Definition setVariableValue (sessionId callFrameId : string)
    (scopeIndex : Z) (variableName newValue : string)
    (evalReply : Outcome DebuggerError RemoteObject)
    (setReply : Outcome DebuggerError unit) : Op unit :=
  session ← getSession sessionId;
  requireState session [PAUSED];;
  evalResult ← sendCommand sessionId session
    (EvaluateOnCallFrame callFrameId newValue false) evalReply;
  sendCommand sessionId session
    (SetVariableValue scopeIndex variableName (ro_value evalResult)
       callFrameId) setReply.

End Operations.

End WsSessionManager.

(** ** Sample data

    A platform and values for the closed examples: the library functions
    are given on the literal inputs the examples use. *)

Module Sample.
Import Protocol.

Definition unmapped : SourceMap.MappedPosition :=
  {| SourceMap.mp_source := None; SourceMap.mp_line := None;
     SourceMap.mp_column := None; SourceMap.mp_name := None |}.

(** A consumer whose only mapping takes generated line 11, column 0 to
    [src/a.ts], line 6, column 2, name [f]. *)
Definition consumer : SourceMap.SourceMapConsumer :=
  {| SourceMap.originalPositionFor := fun line column =>
       if (line =? 11) && (column =? 0)
       then {| SourceMap.mp_source := Some "src/a.ts";
               SourceMap.mp_line := Some 6;
               SourceMap.mp_column := Some 2;
               SourceMap.mp_name := Some "f" |}
       else unmapped;
     SourceMap.generatedPositionFor := fun _ _ _ => (None, None);
     SourceMap.sourceContentFor := fun _ => None;
     SourceMap.sources := ["src/a.ts"] |}.

(** [new URL] on the URLs of the examples; every other string is taken
    as malformed. *)
Definition parse_url (s : string) : option URL :=
  if String.eqb s "ws://localhost:9229/t"
  then Some {| protocol := "ws:"; hostname := "localhost" |}
  else if String.eqb s "ws://example.com:9229/t"
  then Some {| protocol := "ws:"; hostname := "example.com" |}
  else if String.eqb s "http://localhost:9229/json"
  then Some {| protocol := "http:"; hostname := "localhost" |}
  else None.

(** A platform on which decoding, parsing and building a consumer always
    succeed, and no external source map can be read. *)
Definition platform : Platform :=
  {| RawSourceMap := string;
     base64_decode := fun s => s;
     JSON_parse := fun s => Some s;
     new_consumer := fun _ => Some consumer;
     URL_resolve := fun _ _ => None;
     fetch_text := fun _ => None;
     URL_parse := parse_url |}.

Definition object (objectId : string) : RemoteObject :=
  {| ro_type := "object"; ro_className := None; ro_value := None;
     ro_unserializableValue := None; ro_description := None;
     ro_objectId := Some objectId |}.

Definition number (n : Z) : RemoteObject :=
  {| ro_type := "number"; ro_className := None;
     ro_value := Some (JNum n); ro_unserializableValue := None;
     ro_description := None; ro_objectId := None |}.

(** A frame at line 10, column 0 of script [s-1] with one local scope. *)
Definition frame : CallFrame :=
  {| cf_callFrameId := "frame-1"; cf_functionName := "test";
     cf_location := {| loc_scriptId := "s-1"; loc_lineNumber := 10;
                       loc_columnNumber := Some 0 |};
     cf_scopeChain := [ {| sc_type := "local"; sc_object := object "obj-1";
                           sc_name := None |} ];
     cf_this := object "this-1" |}.

Definition paused : PausedState :=
  {| ps_reason := "breakpoint"; ps_callFrames := [frame];
     ps_asyncStackTrace := None; ps_data := None;
     ps_hitBreakpoints := None |}.

Definition script (scriptId url : string) (sourceMapUrl : option string)
    : ScriptInfo :=
  {| si_scriptId := scriptId; si_url := url;
     si_sourceMapUrl := sourceMapUrl; si_startLine := 0;
     si_startColumn := 0; si_endLine := 100; si_endColumn := 0;
     si_hash := "abc123" |}.

(** A manager with one session [sid], connected to
    [ws://localhost:9229/t]. *)
Definition connected : SessionManager.t :=
  (SessionManager.createSession (H := platform) "ws://localhost:9229/t"
     None "sid" [] (Ok tt) SessionManager.empty).2.

(** The same after the target reported script [s-1] with an inline
    source map and a script without URL, and then paused in [frame]. *)
Definition at_pause : SessionManager.t :=
  SessionManager.run (H := platform)
    [ SessionManager.Deliver "sid"
        (ScriptParsed
           (script "s-1" "file:///d/b.js"
              (Some "data:application/json;base64,e30=")));
      SessionManager.Deliver "sid" (ScriptParsed (script "s-2" "" None));
      SessionManager.Deliver "sid" (Paused paused) ]
    connected.

(** The session installed under [sid] in a manager that has one. *)
Definition session_of (m : SessionManager.t)
    : SessionManager.ManagedSession :=
  default (SessionManager.new_session "sid" None "")
    (SessionManager.sessions m !! "sid").

Definition location (line column : Z) : Location :=
  {| loc_scriptId := "s-1"; loc_lineNumber := line;
     loc_columnNumber := Some column |}.

(** The reply [{breakpointId: "bp-1", locations: [(s-1, 10, 0)]}]. *)
Definition bp_reply : SetBreakpointByUrlResponse :=
  {| sb_breakpointId := "bp-1"; sb_locations := [location 10 0] |}.

(** Connect, pause, resume: the operation, then the notification. *)
Definition pause_and_resume : list SessionManager.Action :=
  [ SessionManager.CreateSession "ws://localhost:9229/t" None "sid" []
      (Ok tt);
    SessionManager.Deliver "sid" (Paused paused);
    SessionManager.ResumeSession "sid" [] (Ok tt);
    SessionManager.Deliver "sid" Resumed ].

(** The CDP manager after [setBreakpoint] was answered with [bp-1],
    resolved at line 10, column 0. *)
Definition with_breakpoint : SessionManager.t :=
  (SessionManager.setBreakpoint (H := platform) "sid" "file:///a.js" 10
     None None (Ok bp_reply) connected).2.

(** The two property descriptors of the scope object: a variable [x]
    with the value 1 and an accessor [acc] without a value. *)
Definition variable_x : PropertyDescriptor :=
  {| pd_name := "x"; pd_value := Some (number 1);
     pd_writable := Some true; pd_get := None; pd_set := None;
     pd_configurable := true; pd_enumerable := true |}.

Definition accessor_acc : PropertyDescriptor :=
  {| pd_name := "acc"; pd_value := None; pd_writable := None;
     pd_get := Some (object "getter-1"); pd_set := None;
     pd_configurable := true; pd_enumerable := true |}.

(** A remote object with both a [value] key and an unserializable
    form. *)
Definition value_and_unserializable : RemoteObject :=
  {| ro_type := "number"; ro_className := None;
     ro_value := Some (JNum 1);
     ro_unserializableValue := Some "Infinity";
     ro_description := None; ro_objectId := None |}.

(** Ten session ids. *)
Definition ten_ids : list string :=
  ["s0"; "s1"; "s2"; "s3"; "s4"; "s5"; "s6"; "s7"; "s8"; "s9"].

(** The CDP manager with ten sessions. *)
Definition full : SessionManager.t :=
  foldl
    (fun m sessionId =>
       (SessionManager.createSession (H := platform)
          "ws://localhost:9229/t" None sessionId [] (Ok tt) m).2)
    SessionManager.empty ten_ids.

(** *** The WebSocket manager *)

(** The WebSocket manager with the default configuration and one session
    [sid], connected to [ws://localhost:9229/t]. *)
Definition ws_connected : WsSessionManager.t :=
  (WsSessionManager.connect (H := platform) "ws://localhost:9229/t" None
     "sid" [] (Ok tt)
     (WsSessionManager.create WsSessionManager.DEFAULT_CONFIG)).2.

(** The session installed under [sid] in a WebSocket manager that has
    one. *)
Definition ws_session_of (m : WsSessionManager.t)
    : WsSessionManager.DebugSession :=
  default
    {| WsSessionManager.id := "sid"; WsSessionManager.name := None;
       WsSessionManager.targetUrl := "";
       WsSessionManager.wsClient :=
         {| WsSessionManager.isConnected := false;
            WsSessionManager.sent := [] |};
       WsSessionManager.state := WsSessionManager.DISCONNECTED;
       WsSessionManager.breakpoints := ∅;
       WsSessionManager.scripts := ∅;
       WsSessionManager.pausedState := None |}
    (WsSessionManager.sessions m !! "sid").

Definition ws_location (line column : Z)
    : WsSessionManager.BreakpointLocation :=
  {| WsSessionManager.bl_scriptId := "s-1";
     WsSessionManager.bl_lineNumber := line;
     WsSessionManager.bl_columnNumber := column |}.

(** The same manager after [setBreakpoint] was answered with [bp-1],
    resolved at line 10, column 0. *)
Definition ws_with_breakpoint : WsSessionManager.t :=
  (WsSessionManager.setBreakpoint "sid" "file:///a.js" 10 None None None
     (Ok {| WsSessionManager.sr_breakpointId := "bp-1";
            WsSessionManager.sr_locations := [ws_location 10 0] |})
     ws_connected).2.

Definition ws_object (objectId : string) : WsSessionManager.RemoteObject :=
  {| WsSessionManager.ro_type := "object";
     WsSessionManager.ro_className := None;
     WsSessionManager.ro_value := None;
     WsSessionManager.ro_description := None;
     WsSessionManager.ro_objectId := Some objectId |}.

Definition ws_number (n : Z) : WsSessionManager.RemoteObject :=
  {| WsSessionManager.ro_type := "number";
     WsSessionManager.ro_className := None;
     WsSessionManager.ro_value := Some (JNum n);
     WsSessionManager.ro_description := None;
     WsSessionManager.ro_objectId := None |}.

Definition ws_scope : WsSessionManager.Scope :=
  {| WsSessionManager.sc_type := "local";
     WsSessionManager.sc_object := ws_object "obj-1";
     WsSessionManager.sc_name := None |}.

Definition ws_frame : WsSessionManager.CallFrame :=
  {| WsSessionManager.cf_callFrameId := "frame-1";
     WsSessionManager.cf_functionName := "test";
     WsSessionManager.cf_scriptId := "s-1";
     WsSessionManager.cf_url := "file:///d/b.js";
     WsSessionManager.cf_lineNumber := 10;
     WsSessionManager.cf_columnNumber := 0;
     WsSessionManager.cf_thisObject := ws_object "this-1";
     WsSessionManager.cf_scopeChain := [ws_scope] |}.

Definition ws_paused : WsSessionManager.PausedState :=
  {| WsSessionManager.ps_reason := "breakpoint";
     WsSessionManager.ps_callFrames := [ws_frame];
     WsSessionManager.ps_asyncStackTrace := None;
     WsSessionManager.ps_data := None |}.

(** The WebSocket manager after its session paused in [ws_frame]. *)
Definition ws_at_pause : WsSessionManager.t :=
  WsSessionManager.handleSessionEvent "sid"
    (WsSessionManager.paused ws_paused) ws_connected.

(** The properties of the scope object: a variable [x] with the value 1
    and an accessor [acc] without a value. *)
Definition ws_properties : list WsSessionManager.Property :=
  [ {| WsSessionManager.pr_name := "x";
       WsSessionManager.pr_value := Some (ws_number 1) |};
    {| WsSessionManager.pr_name := "acc";
       WsSessionManager.pr_value := None |} ].

(** The WebSocket manager with the default configuration, whose maximum
    is ten sessions, and ten sessions. *)
Definition ws_full : WsSessionManager.t :=
  foldl
    (fun m sessionId =>
       (WsSessionManager.connect (H := platform) "ws://localhost:9229/t"
          None sessionId [] (Ok tt) m).2)
    (WsSessionManager.create WsSessionManager.DEFAULT_CONFIG) ten_ids.

End Sample.

(** ** Statements

    Definitions used to state the properties: forms of inputs and
    invariants of the managers. *)

(** The strings that match the pattern of [loadInlineSourceMap], spelled
    out: one of two literal prefixes, then a payload that is not empty and
    holds no line terminator. *)
Definition inline_form (dataUrl payload : string) : Prop :=
  (dataUrl = "data:application/json;base64," +:+ payload
   \/ dataUrl = "data:application/json;charset=utf-8;base64," +:+ payload)
  /\ Re.dot_plus_end payload = Some payload.


(** A property of every session installed in the CDP manager. *)
Definition every_session
    (P : string -> SessionManager.ManagedSession -> Prop)
    (m : SessionManager.t) : Prop :=
  forall sessionId session,
    SessionManager.sessions m !! sessionId = Some session ->
    P sessionId session.

(** I3 for one session: it is in [PAUSED] iff its snapshot is present. *)
Definition paused_iff_snapshot (session : SessionManager.ManagedSession)
    : Prop :=
  SessionManager.state session = SessionManager.PAUSED
  <-> is_Some (SessionManager.pausedState session).



(** The record [setBreakpoint] stores for a reply of the target. *)
Definition stored (url : string) (lineNumber : Z)
    (columnNumber : option Z) (condition : option string)
    (response : Protocol.SetBreakpointByUrlResponse)
    : SessionManager.BreakpointInfo :=
  {| SessionManager.bp_id := Protocol.sb_breakpointId response;
     SessionManager.bp_url := url;
     SessionManager.bp_lineNumber := lineNumber;
     SessionManager.bp_columnNumber := columnNumber;
     SessionManager.bp_condition := condition;
     SessionManager.bp_enabled := true;
     SessionManager.bp_resolvedLocations :=
       (fun loc =>
          {| SessionManager.rl_scriptId := Protocol.loc_scriptId loc;
             SessionManager.rl_lineNumber := Protocol.loc_lineNumber loc;
             SessionManager.rl_columnNumber :=
               default 0 (Protocol.loc_columnNumber loc) |})
       <$> Protocol.sb_locations response |}.

(** The entries of [getScopeVariables] for the fetched properties
    [props]: one [(name, value)] entry for each property that carries a
    value, in the order of [props]. *)
Definition valued (props : list WsSessionManager.Property)
    : list WsSessionManager.ScopeVariable :=
  omap (fun prop =>
          match WsSessionManager.pr_value prop with
          | Some value =>
              Some {| WsSessionManager.sv_name :=
                        WsSessionManager.pr_name prop;
                      WsSessionManager.sv_value := value |}
          | None => None
          end)
       props.

(** The [CallArgument] in the order the specification gives (section
    4.6): the object id if there is one, else the unserializable form if
    there is one, else the value. *)
Definition documented_argument (result : Protocol.RemoteObject)
    : Protocol.CallArgument :=
  if Js.truthy_opt (Protocol.ro_objectId result) then
    {| Protocol.ca_value := None; Protocol.ca_unserializableValue := None;
       Protocol.ca_objectId := Protocol.ro_objectId result |}
  else if Js.truthy_opt (Protocol.ro_unserializableValue result) then
    {| Protocol.ca_value := None;
       Protocol.ca_unserializableValue :=
         Protocol.ro_unserializableValue result;
       Protocol.ca_objectId := None |}
  else
    {| Protocol.ca_value := Protocol.ro_value result;
       Protocol.ca_unserializableValue := None;
       Protocol.ca_objectId := None |}.

(** The admission policy: the URL parses, its scheme is [ws] or [wss],
    and its host is on the allow-list or the configuration does not
    require confirmation for remote hosts. *)
Definition admitted `{Platform} (cfg : WsSessionManager.ServerConfig)
    (url : string) : Prop :=
  exists parsed,
    URL_parse url = Some parsed
    /\ (protocol parsed = "ws:" \/ protocol parsed = "wss:")
    /\ (hostname parsed ∈ WsSessionManager.allowedHosts cfg
        \/ WsSessionManager.requireConfirmationForRemote cfg = false).

(** * Properties *)

(** ** Outcomes of the monad *)

Section MonadFacts.
Context {S E : Type}.

Lemma bind_ok {A B} (c : M S E A) (k : A -> M S E B) s a s' :
  c s = (Ok a, s') -> (c ≫= k) s = k a s'.
Proof. intros Hc. unfold mbind, M_bind, bind. by rewrite Hc. Qed.

Lemma bind_throw {A B} (c : M S E A) (k : A -> M S E B) s e s' :
  c s = (Throw e, s') -> (c ≫= k) s = (Throw e, s').
Proof. intros Hc. unfold mbind, M_bind, bind. by rewrite Hc. Qed.

End MonadFacts.

(** ** Data URLs *)

Section DataUrls.

Lemma strip_Some p s r : Re.strip p s = Some r <-> s = p +:+ r.
Proof.
  revert s. induction p as [|a p IH]; intros s; simpl.
  - split; [by intros [= ->] | by intros ->].
  - destruct s as [|b s]; simpl.
    + split; [done | by intros [=]].
    + destruct (Ascii.eqb_spec a b) as [->|Hne].
      * rewrite IH. split; [by intros -> | by intros [= ->]].
      * split; [done | intros [= ? _]; done].
Qed.

Lemma dot_plus_end_Some s g : Re.dot_plus_end s = Some g -> g = s.
Proof. unfold Re.dot_plus_end. by case_match; intros [= <-]. Qed.

(** Evaluation of the matchers on a literal prefix, leaving the rest of
    the string alone. *)
Ltac re_eval :=
  cbv [Re.strip String.append Ascii.eqb Bool.eqb mbind option_bind
       Re.orelse Re.span_not_semi Js.truthy].

Ltac opt_eval := cbn [mbind option_bind Re.orelse].

Lemma inline_pattern_form dataUrl payload :
  SourceMapManager.inline_pattern dataUrl = Some payload
  <-> inline_form dataUrl payload.
Proof.
  unfold SourceMapManager.inline_pattern, inline_form. split.
  - destruct (Re.strip "data:application/json;" dataUrl) as [r0|] eqn:H0;
      opt_eval; [|done].
    apply strip_Some in H0. subst dataUrl.
    destruct (Re.strip "charset=utf-8;" r0) as [r1|] eqn:H1; opt_eval.
    + apply strip_Some in H1. subst r0.
      destruct (Re.strip "base64," r1) as [r2|] eqn:H2; opt_eval;
        [|discriminate].
      apply strip_Some in H2. subst r1.
      destruct (Re.dot_plus_end r2) as [g|] eqn:H3; opt_eval;
        [|discriminate].
      intros [= Hg]. pose proof (dot_plus_end_Some _ _ H3) as Hr.
      subst g. subst payload. split; [right; reflexivity | done].
    + destruct (Re.strip "base64," r0) as [r2|] eqn:H2; opt_eval; [|done].
      apply strip_Some in H2. subst r0.
      intros H3. pose proof (dot_plus_end_Some _ _ H3) as Hr.
      subst payload. split; [left; reflexivity | done].
  - intros [[-> | ->] Hdot]; re_eval; by rewrite Hdot.
Qed.

(** Every string the loader recognises has the documented form, with
    the same payload. *)
Lemma inline_pattern_documented dataUrl payload :
  SourceMapManager.inline_pattern dataUrl = Some payload ->
  SourceMapManager.documented_pattern dataUrl = Some payload.
Proof.
  rewrite inline_pattern_form. intros [[-> | ->] Hdot];
    unfold SourceMapManager.documented_pattern; re_eval;
    by rewrite Hdot.
Qed.

End DataUrls.

(** ** The inline source-map loader *)

Section InlineLoader.
Context `{Platform}.

Lemma loadInlineSourceMap_unmatched scriptId dataUrl m :
  SourceMapManager.inline_pattern dataUrl = None ->
  SourceMapManager.loadInlineSourceMap scriptId dataUrl m = (false, m).
Proof.
  intros Hno. unfold SourceMapManager.loadInlineSourceMap.
  by rewrite Hno.
Qed.

Lemma loadInlineSourceMap_matched scriptId dataUrl payload m :
  SourceMapManager.inline_pattern dataUrl = Some payload ->
  SourceMapManager.loadInlineSourceMap scriptId dataUrl m =
    match JSON_parse (base64_decode payload) ≫= new_consumer with
    | Some consumer =>
        (true, SourceMapManager.install scriptId None consumer m)
    | None => (false, m)
    end.
Proof.
  intros Hyes. unfold SourceMapManager.loadInlineSourceMap.
  rewrite Hyes. destruct (JSON_parse (base64_decode payload)); simpl;
    [|done].
  by destruct (new_consumer _).
Qed.

(** C6 (amended).  The inline loader recognises exactly the data URLs
    that start with [data:application/json;base64,] or with
    [data:application/json;charset=utf-8;base64,] and go on with a
    payload that is not empty and holds no line terminator.  For such a
    URL it base64-decodes the payload, parses the result as JSON and
    builds a consumer from it; the map is installed when both succeed.
    Every such URL has the documented data-URL form.  Any other string,
    whether of the documented form with another charset or not of the
    documented form at all, is not loaded and leaves the manager as it
    was. *)
Theorem C6_inline_loader_accepts_utf8_or_no_charset
    (scriptId dataUrl : string) (m : SourceMapManager.t) :
  (forall payload,
     inline_form dataUrl payload ->
     SourceMapManager.documented_pattern dataUrl = Some payload
     /\ SourceMapManager.loadInlineSourceMap scriptId dataUrl m =
          match JSON_parse (base64_decode payload) ≫= new_consumer with
          | Some consumer =>
              (true, SourceMapManager.install scriptId None consumer m)
          | None => (false, m)
          end)
  /\ ((forall payload, ~ inline_form dataUrl payload) ->
      SourceMapManager.loadInlineSourceMap scriptId dataUrl m
        = (false, m))
  /\ (SourceMapManager.documented_pattern dataUrl = None ->
      SourceMapManager.loadInlineSourceMap scriptId dataUrl m
        = (false, m)).
Proof.
  split; [|split].
  - intros payload Hform. apply inline_pattern_form in Hform.
    split; [by apply inline_pattern_documented|].
    by apply loadInlineSourceMap_matched.
  - intros Hnone. apply loadInlineSourceMap_unmatched.
    destruct (SourceMapManager.inline_pattern dataUrl) as [p|] eqn:Hp;
      [|done].
    apply inline_pattern_form in Hp. by destruct (Hnone p).
  - intros Hdoc. apply loadInlineSourceMap_unmatched.
    destruct (SourceMapManager.inline_pattern dataUrl) as [p|] eqn:Hp;
      [|done].
    apply inline_pattern_documented in Hp. congruence.
Qed.

End InlineLoader.

(** C6 at a URL without charset: the payload [e30=] is decoded, parsed
    and installed for script [s-1]. *)
Lemma C6_witness :
  SourceMapManager.documented_pattern "data:application/json;base64,e30="
    = Some "e30="
  /\ SourceMapManager.loadInlineSourceMap (H := Sample.platform) "s-1"
       "data:application/json;base64,e30=" SourceMapManager.empty
     = (true,
        SourceMapManager.install "s-1" None Sample.consumer
          SourceMapManager.empty).
Proof.
  apply (proj1 (C6_inline_loader_accepts_utf8_or_no_charset
                  (H := Sample.platform) "s-1"
                  "data:application/json;base64,e30="
                  SourceMapManager.empty) "e30=").
  split; [left|]; reflexivity.
Defined.

(** C6 as stated fails: a data URL of the documented form whose charset
    is spelled [UTF-8] is not recognised by the loader, even on a
    platform where decoding, parsing and building the consumer always
    succeed. *)
Lemma C6_counterexample :
  SourceMapManager.documented_pattern
    "data:application/json;charset=UTF-8;base64,e30=" = Some "e30="
  /\ SourceMapManager.loadInlineSourceMap (H := Sample.platform) "s-1"
       "data:application/json;charset=UTF-8;base64,e30="
       SourceMapManager.empty
     = (false, SourceMapManager.empty).
Proof. split; reflexivity. Qed.

(** ** The CDP session manager: looking a session up *)

Section Lookup.
Import SessionManager.

Lemma getSession_found m sessionId session :
  sessions m !! sessionId = Some session ->
  getSession sessionId m = (Ok session, m).
Proof. intros Hs. unfold getSession. by rewrite Hs. Qed.

Lemma ensurePaused_ok session m :
  state session = PAUSED -> is_Some (pausedState session) ->
  ensurePaused session m = (Ok tt, m).
Proof.
  intros Hst Hp. unfold ensurePaused.
  rewrite (bool_decide_eq_false_2 (state session ≠ PAUSED));
    [|by intros ?].
  by rewrite (bool_decide_eq_true_2 _ Hp).
Qed.

End Lookup.

(** ** Listing scripts *)

Section ListScripts.
Import Protocol SessionManager.

Lemma listScripts_run m sessionId session includeInternal :
  sessions m !! sessionId = Some session ->
  (listScripts sessionId includeInternal m).1 =
    Ok ((fun script =>
           {| se_scriptId := si_scriptId script;
              se_url := si_url script;
              se_sourceMapUrl := si_sourceMapUrl script;
              se_originalSources :=
                SourceMapManager.getOriginalSources
                  (sourceMapManager session) (si_scriptId script);
              se_isInternal := flag_isInternal script |})
        <$> List.filter
              (fun script =>
                 if includeInternal then true
                 else negb (filter_isInternal script))
              (map_to_list (scripts (cdpClient session))).*2).
Proof.
  intros Hs. unfold listScripts.
  by rewrite (bind_ok _ _ _ _ _ (getSession_found _ _ _ Hs)).
Qed.

(** C10.  A script whose URL is the empty string is internal for the
    filter of [listScripts] and not internal for its flag: it is left
    out when [includeInternal] is false, and returned with
    [isInternal = false] when [includeInternal] is true. *)
Theorem C10_empty_url_filtered_but_not_flagged
    (m : SessionManager.t) (sessionId : string)
    (session : ManagedSession) (key : string) (script : ScriptInfo) :
  sessions m !! sessionId = Some session ->
  scripts (cdpClient session) !! key = Some script ->
  si_url script = "" ->
  filter_isInternal script = true
  /\ flag_isInternal script = false
  /\ exists shown everything,
       (listScripts sessionId false m).1 = Ok shown
       /\ (listScripts sessionId true m).1 = Ok everything
       /\ (forall e, e ∈ shown -> se_url e <> "")
       /\ (exists e, e ∈ everything
                     /\ se_scriptId e = si_scriptId script
                     /\ se_url e = ""
                     /\ se_isInternal e = false).
Proof.
  intros Hs Hscript Hurl.
  assert (Hflag : flag_isInternal script = false).
  { unfold flag_isInternal. by rewrite Hurl. }
  split; [|split; [done|]].
  { unfold filter_isInternal. rewrite Hurl. reflexivity. }
  eexists _, _. split; [by apply listScripts_run|].
  split; [by apply listScripts_run|]. split.
  - intros e He. apply list_elem_of_fmap in He as (s & -> & Hin).
    apply list_elem_of_In, filter_In in Hin as [_ Hkeep]. simpl.
    intros Hempty. unfold filter_isInternal in Hkeep.
    rewrite Hempty in Hkeep. by rewrite orb_true_r in Hkeep.
  - eexists. split.
    + apply list_elem_of_fmap. exists script. split; [reflexivity|].
      apply list_elem_of_In, filter_In. split; [|done].
      apply list_elem_of_In, list_elem_of_fmap.
      exists (key, script). split; [done|].
      by apply elem_of_map_to_list.
    + by simpl.
Qed.

End ListScripts.

(** C10 at the sample session, whose script [s-2] has an empty URL. *)
Lemma C10_witness :
  SessionManager.filter_isInternal (Sample.script "s-2" "" None) = true
  /\ SessionManager.flag_isInternal (Sample.script "s-2" "" None) = false
  /\ exists shown everything,
       (SessionManager.listScripts "sid" false Sample.at_pause).1 = Ok shown
       /\ (SessionManager.listScripts "sid" true Sample.at_pause).1
            = Ok everything
       /\ (forall e, e ∈ shown -> SessionManager.se_url e <> "")
       /\ (exists e, e ∈ everything
                     /\ SessionManager.se_scriptId e = "s-2"
                     /\ SessionManager.se_url e = ""
                     /\ SessionManager.se_isInternal e = false).
Proof.
  eapply (C10_empty_url_filtered_but_not_flagged Sample.at_pause "sid" _
            "s-2" (Sample.script "s-2" "" None)).
  - vm_compute. reflexivity.
  - vm_compute. reflexivity.
  - reflexivity.
Defined.

(** ** Line-number bases across the source map *)

Section LineBases.
Import Protocol SessionManager.




End LineBases.


(** ** Runs of the CDP session manager *)

Section Runs.
Import Protocol SessionManager.
Context `{Platform}.

Lemma every_alter P ss sessionId f :
  (forall session, ss !! sessionId = Some session ->
                   P sessionId session -> P sessionId (f session)) ->
  every_session P {| sessions := ss |} ->
  every_session P {| sessions := alter f sessionId ss |}.
Proof.
  intros Hf Hm sid s. simpl. rewrite lookup_alter.
  destruct (decide (sessionId = sid)) as [<-|Hne].
  - destruct (ss !! sessionId) as [s0|] eqn:Hs0; simpl; [|done].
    intros [= <-]. apply Hf; [done|]. by apply Hm.
  - apply Hm.
Qed.

Lemma every_insert P ss sessionId session :
  P sessionId session ->
  every_session P {| sessions := ss |} ->
  every_session P {| sessions := <[sessionId := session]> ss |}.
Proof.
  intros Hs Hm sid s. simpl. rewrite lookup_insert.
  destruct (decide (sessionId = sid)) as [<-|Hne].
  - by intros [= <-].
  - apply Hm.
Qed.

Lemma every_delete P ss sessionId :
  every_session P {| sessions := ss |} ->
  every_session P {| sessions := delete sessionId ss |}.
Proof.
  intros Hm sid s. simpl. rewrite lookup_delete.
  destruct (decide (sessionId = sid)) as [<-|Hne]; [done|]. apply Hm.
Qed.

Lemma every_same P m : every_session P m ->
  every_session P {| sessions := sessions m |}.
Proof. by destruct m. Qed.

Lemma every_empty P : every_session P SessionManager.empty.
Proof. intros sid s. simpl. by rewrite lookup_empty. Qed.

Lemma run_cons a actions m : run (a :: actions) m = run actions (exec a m).
Proof. reflexivity. Qed.

End Runs.

(** Unfolding an operation of the CDP manager down to its lookups and
    updates of [sessions], one goal per path through it. *)
Ltac cdp_paths :=
  unfold SessionManager.exec, SessionManager.deliver,
    SessionManager.createSession, SessionManager.destroySession,
    SessionManager.setBreakpoint, SessionManager.removeBreakpoint,
    SessionManager.resume, SessionManager.pause, SessionManager.step,
    SessionManager.evaluate, SessionManager.getScopeVariables,
    SessionManager.setVariableValue, SessionManager.setPauseOnExceptions,
    SessionManager.call, SessionManager.update,
    SessionManager.ensurePaused, SessionManager.ensureRunning,
    SessionManager.getSession, modify, await, throw, try_catch,
    mbind, M_bind, bind, mret, M_ret, ret in *;
  repeat (simpl in *; case_match; simplify_eq).

(** After [cdp_paths]: the manager is the old one under updates of
    single sessions. *)
Ltac cdp_every :=
  simpl;
  repeat first
    [ assumption
    | by apply every_same
    | apply every_delete
    | apply every_alter; [intros ? ? ?|]
    | apply every_insert ].

(** ** Invariants of the CDP session manager *)

Section Invariants.
Import Protocol SessionManager.
Context `{Platform}.

(** *** What a notification does to the breakpoint table *)










End Invariants.

(** ** Setting and removing a breakpoint *)

Section Breakpoints.
Import Protocol SessionManager.
Context `{Platform}.






End Breakpoints.


(** ** Paused state and paused snapshot *)

Section PausedSnapshot.
Import Protocol SessionManager.
Context `{Platform}.

Lemma state_on_scriptParsed params s :
  state (on_scriptParsed params s) = state s
  /\ pausedState (on_scriptParsed params s) = pausedState s.
Proof. unfold on_scriptParsed. by repeat case_match. Qed.

Lemma state_on_breakpointResolved breakpointId location s :
  state (on_breakpointResolved breakpointId location s) = state s
  /\ pausedState (on_breakpointResolved breakpointId location s)
     = pausedState s.
Proof. unfold on_breakpointResolved. by case_match. Qed.

(** Every handler leaves the session with I3. *)
Lemma snapshot_handle e s :
  paused_iff_snapshot s -> paused_iff_snapshot (handle e s).
Proof.
  unfold paused_iff_snapshot. intros Hs.
  destruct e as [p| |sp|bid loc|]; simpl.
  - split; [by eexists | done].
  - split; [done | by intros [? [=]]].
  - by destruct (state_on_scriptParsed sp s) as [-> ->].
  - by destruct (state_on_breakpointResolved bid loc s) as [-> ->].
  - split; [done | by intros [? [=]]].
Qed.

Lemma snapshot_handle_all es s :
  paused_iff_snapshot s -> paused_iff_snapshot (handle_all es s).
Proof.
  revert s. induction es as [|e es IH]; intros s Hs; [done|].
  simpl. apply IH. by apply snapshot_handle.
Qed.

(** Only a [paused] notification installs a snapshot. *)
Lemma quiet_handle_all es s :
  forallb (fun e => negb (is_paused_event e)) es = true ->
  pausedState s = None ->
  pausedState (handle_all es s) = None.
Proof.
  revert s. induction es as [|e es IH]; intros s Hq Hs; [done|].
  simpl in Hq. apply andb_true_iff in Hq as [He Hq].
  simpl. apply IH; [done|].
  destruct e as [p| |sp|bid loc|]; simpl; try done.
  - by destruct (state_on_scriptParsed sp s) as [_ ->].
  - by destruct (state_on_breakpointResolved bid loc s) as [_ ->].
Qed.

Lemma snapshot_exec a m :
  quiet a = true ->
  every_session (fun _ => paused_iff_snapshot) m ->
  every_session (fun _ => paused_iff_snapshot) (exec a m).
Proof.
  intros Hq Hm. destruct a; cdp_paths; cdp_every;
    try (by apply snapshot_handle); try (by apply snapshot_handle_all);
    try done.
  - (* createSession: a fresh session, no snapshot, CONNECTED *)
    unfold paused_iff_snapshot. simpl.
    rewrite (quiet_handle_all during); [|done|done].
    split; [done | by intros [? [=]]].
  - (* resume from CONNECTED: no snapshot before, none arrives *)
    match goal with
    | Hl : sessions ?t0 !! ?sid = Some ?s0, Hf : _ !! ?sid = Some ?s,
      Hst : state ?s0 = CONNECTED |- _ =>
        rewrite !lookup_alter_eq, Hl in Hf; simpl in Hf;
        injection Hf as <-;
        pose proof (Hm _ _ Hl) as [_ Hsnap]; rewrite Hst in Hsnap
    end.
    unfold paused_iff_snapshot. simpl.
    rewrite (quiet_handle_all during); [|done|].
    + split; [done | by intros [? [=]]].
    + simpl. match goal with
             | |- pausedState ?s0 = None =>
                 destruct (pausedState s0); [|done]
             end.
      by specialize (Hsnap ltac:(by eexists)).
Qed.

Lemma snapshot_run actions m :
  forallb quiet actions = true ->
  every_session (fun _ => paused_iff_snapshot) m ->
  every_session (fun _ => paused_iff_snapshot) (run actions m).
Proof.
  revert m. induction actions as [|a actions IH]; intros m Hq Hm; [done|].
  simpl in Hq. apply andb_true_iff in Hq as [Ha Hq].
  rewrite run_cons. apply IH; [done|]. by apply snapshot_exec.
Qed.

End PausedSnapshot.

Section PausedSnapshotClaim.
Import Protocol SessionManager.
Context `{Platform}.

Lemma resume_run m sessionId session during reply :
  sessions m !! sessionId = Some session ->
  connected (cdpClient session) = true ->
  sessions (resume sessionId during reply m).2 !! sessionId =
    Some (match state session, reply with
          | PAUSED, _ =>
              handle_all during (log Resume session)
          | CONNECTED, Ok _ =>
              set_state RUNNING
                (handle_all during (log RunIfWaitingForDebugger session))
          | CONNECTED, Throw _ =>
              handle_all during (log RunIfWaitingForDebugger session)
          | _, _ => session
          end).
Proof.
  intros Hs Hc. unfold resume.
  rewrite (bind_ok _ _ _ _ _ (getSession_found _ _ _ Hs)).
  unfold call. rewrite Hc.
  destruct (state session), reply; simpl;
    rewrite ?lookup_alter_eq, Hs; done.
Qed.

(** C7 (amended).  The [paused] handler installs the snapshot together
    with the state [PAUSED]; the [resumed] handler and the loss of the
    transport leave the session without a snapshot, in [RUNNING] and
    [DISCONNECTED].  The [resume] operation does not touch the
    snapshot: called on a paused session it sends [Debugger.resume] and
    the session stays [PAUSED] with its snapshot until the [resumed]
    notification arrives; called on a connected session and
    acknowledged it moves the session to [RUNNING].  In every state
    reached from the empty manager by operations and notifications, no
    [paused] notification arriving while [createSession] or [resume]
    awaits, every installed session is in [PAUSED] iff its snapshot is
    present. *)
Theorem C7_paused_iff_snapshot :
  (forall params s,
     state (handle (Paused params) s) = PAUSED
     /\ pausedState (handle (Paused params) s) = Some params)
  /\ (forall s,
        state (handle Resumed s) = RUNNING
        /\ pausedState (handle Resumed s) = None)
  /\ (forall s,
        state (handle Disconnected s) = DISCONNECTED
        /\ pausedState (handle Disconnected s) = None)
  /\ (forall m sessionId s reply,
        sessions m !! sessionId = Some s ->
        state s = PAUSED ->
        connected (cdpClient s) = true ->
        exists s',
          sessions (resume sessionId [] reply m).2 !! sessionId = Some s'
          /\ calls (cdpClient s') = (calls (cdpClient s) ++ [Resume])%list
          /\ state s' = PAUSED
          /\ pausedState s' = pausedState s)
  /\ (forall m sessionId s,
        sessions m !! sessionId = Some s ->
        state s = CONNECTED ->
        connected (cdpClient s) = true ->
        exists s',
          sessions (resume sessionId [] (Ok tt) m).2 !! sessionId
            = Some s'
          /\ calls (cdpClient s') =
               (calls (cdpClient s) ++ [RunIfWaitingForDebugger])%list
          /\ state s' = RUNNING
          /\ pausedState s' = pausedState s)
  /\ (forall actions,
        forallb quiet actions = true ->
        every_session (fun _ => paused_iff_snapshot)
          (run actions SessionManager.empty)).
Proof.
  split; [|split; [|split; [|split; [|split]]]].
  - intros params s. split; [done|]. simpl. by destruct params.
  - done.
  - done.
  - intros m sid s reply Hs Hst Hc. eexists.
    split; [by apply resume_run|]. by rewrite Hst.
  - intros m sid s Hs Hst Hc. eexists.
    split; [by apply resume_run|]. by rewrite Hst.
  - intros actions Hq. apply snapshot_run; [done|]. apply every_empty.
Qed.

End PausedSnapshotClaim.

(** C7 along a run of the sample session: connect, pause, resume (the
    operation, then the notification); the session ends in [RUNNING]
    without a snapshot. *)
Lemma C7_witness :
  paused_iff_snapshot
    (Sample.session_of
       (SessionManager.run (H := Sample.platform) Sample.pause_and_resume
          SessionManager.empty)).
Proof.
  apply (proj2 (proj2 (proj2 (proj2 (proj2
           (C7_paused_iff_snapshot (H := Sample.platform))))))
           Sample.pause_and_resume eq_refl "sid").
  vm_compute. reflexivity.
Defined.

(** C7 as stated fails: the [resume] operation on the paused sample
    session, acknowledged by the target, leaves it in [PAUSED] with its
    snapshot. *)
Lemma C7_counterexample :
  let after :=
    Sample.session_of
      (SessionManager.resume (H := Sample.platform) "sid" [] (Ok tt)
         Sample.at_pause).2 in
  (SessionManager.resume (H := Sample.platform) "sid" [] (Ok tt)
     Sample.at_pause).1 = Ok tt
  /\ SessionManager.state after = SessionManager.PAUSED
  /\ SessionManager.pausedState after = Some Sample.paused.
Proof. vm_compute. repeat split; reflexivity. Qed.

(** A [paused] notification that arrives while [createSession] awaits the
    handshake, or while [resume] awaits [runIfWaitingForDebugger], is
    overwritten by the assignment that follows the [await]: the session
    keeps the snapshot in a state other than [PAUSED]. *)
Lemma paused_overtaken_by_continuation :
  let created :=
    Sample.session_of
      (SessionManager.createSession (H := Sample.platform)
         "ws://localhost:9229/t" None "sid"
         [Protocol.Paused Sample.paused] (Ok tt) SessionManager.empty).2 in
  let resumed :=
    Sample.session_of
      (SessionManager.resume (H := Sample.platform) "sid"
         [Protocol.Paused Sample.paused] (Ok tt) Sample.connected).2 in
  (SessionManager.state created = SessionManager.CONNECTED
   /\ SessionManager.pausedState created = Some Sample.paused)
  /\ (SessionManager.state resumed = SessionManager.RUNNING
      /\ SessionManager.pausedState resumed = Some Sample.paused).
Proof. vm_compute. repeat split; reflexivity. Qed.

(** ** The two managers on [Debugger.breakpointResolved] *)

Section BreakpointResolved.
Context `{Platform}.

Lemma deliver_found m sessionId session e :
  SessionManager.sessions m !! sessionId = Some session ->
  SessionManager.sessions (SessionManager.deliver sessionId e m)
    !! sessionId = Some (SessionManager.handle e session).
Proof.
  intros Hs. unfold SessionManager.deliver. simpl.
  by rewrite lookup_alter_eq, Hs.
Qed.

Lemma deliver_unchanged m sessionId e :
  (forall session,
     SessionManager.sessions m !! sessionId = Some session ->
     SessionManager.handle e session = session) ->
  SessionManager.deliver sessionId e m = m.
Proof.
  intros Hsame. unfold SessionManager.deliver. destruct m as [ss].
  simpl in *. f_equal. apply map_eq. intros k. rewrite lookup_alter.
  case_decide; [subst k|done].
  destruct (ss !! sessionId) as [s|] eqn:Hs; [|done].
  simpl. by rewrite (Hsame s eq_refl).
Qed.

(** C5 (amended).  When the breakpoint table of the session holds a
    record under the id of a [breakpointResolved] notification, the CDP
    manager appends the resolved location (column [0] when the wire omits
    it) to the resolved locations of that record and keeps the earlier
    ones, while the WebSocket manager replaces the locations of the
    record by the location of the notification alone; both leave the
    other fields of the record and the other records as they are.  When
    the table holds no such record, both managers are left unchanged; the
    handlers are total and raise no error. *)
Theorem C5_breakpoint_resolved :
  (forall m sessionId session breakpointId location record,
     SessionManager.sessions m !! sessionId = Some session ->
     SessionManager.breakpoints session !! breakpointId = Some record ->
     exists session' record',
       SessionManager.sessions
         (SessionManager.deliver sessionId
            (Protocol.BreakpointResolved breakpointId location) m)
         !! sessionId = Some session'
       /\ SessionManager.breakpoints session' =
            <[breakpointId := record']> (SessionManager.breakpoints session)
       /\ SessionManager.bp_resolvedLocations record' =
            (SessionManager.bp_resolvedLocations record ++
             [ {| SessionManager.rl_scriptId :=
                    Protocol.loc_scriptId location;
                  SessionManager.rl_lineNumber :=
                    Protocol.loc_lineNumber location;
                  SessionManager.rl_columnNumber :=
                    default 0 (Protocol.loc_columnNumber location) |} ])%list
       /\ SessionManager.bp_id record' = SessionManager.bp_id record
       /\ SessionManager.bp_url record' = SessionManager.bp_url record
       /\ SessionManager.bp_lineNumber record'
            = SessionManager.bp_lineNumber record
       /\ SessionManager.bp_columnNumber record'
            = SessionManager.bp_columnNumber record
       /\ SessionManager.bp_condition record'
            = SessionManager.bp_condition record
       /\ SessionManager.bp_enabled record'
            = SessionManager.bp_enabled record)
  /\ (forall m sessionId session breakpointId location,
        SessionManager.sessions m !! sessionId = Some session ->
        SessionManager.breakpoints session !! breakpointId = None ->
        SessionManager.deliver sessionId
          (Protocol.BreakpointResolved breakpointId location) m = m)
  /\ (forall m sessionId session breakpointId location record,
        WsSessionManager.sessions m !! sessionId = Some session ->
        WsSessionManager.breakpoints session !! breakpointId
          = Some record ->
        exists session' record',
          WsSessionManager.sessions
            (WsSessionManager.handleSessionEvent sessionId
               (WsSessionManager.breakpointResolved breakpointId location)
               m)
            !! sessionId = Some session'
          /\ WsSessionManager.breakpoints session' =
               <[breakpointId := record']>
                 (WsSessionManager.breakpoints session)
          /\ WsSessionManager.bp_locations record' = [location]
          /\ WsSessionManager.bp_id record' = WsSessionManager.bp_id record
          /\ WsSessionManager.bp_url record'
               = WsSessionManager.bp_url record
          /\ WsSessionManager.bp_lineNumber record'
               = WsSessionManager.bp_lineNumber record
          /\ WsSessionManager.bp_columnNumber record'
               = WsSessionManager.bp_columnNumber record
          /\ WsSessionManager.bp_condition record'
               = WsSessionManager.bp_condition record
          /\ WsSessionManager.bp_enabled record'
               = WsSessionManager.bp_enabled record)
  /\ (forall m sessionId session breakpointId location,
        WsSessionManager.sessions m !! sessionId = Some session ->
        WsSessionManager.breakpoints session !! breakpointId = None ->
        WsSessionManager.handleSessionEvent sessionId
          (WsSessionManager.breakpointResolved breakpointId location) m
        = m).
Proof.
  split; [|split; [|split]].
  - intros m sid s bid loc record Hs Hrec. eexists _, _.
    split; [by apply deliver_found|]. simpl.
    unfold SessionManager.on_breakpointResolved. rewrite Hrec. simpl.
    by repeat split.
  - intros m sid s bid loc Hs Hrec. apply deliver_unchanged.
    intros s' Hs'. rewrite Hs in Hs'. injection Hs' as <-. simpl.
    unfold SessionManager.on_breakpointResolved. by rewrite Hrec.
  - intros m sid s bid loc record Hs Hrec. eexists _, _.
    unfold WsSessionManager.handleSessionEvent. rewrite Hs. simpl.
    rewrite lookup_insert_eq, Hrec. simpl. by repeat split.
  - intros m sid s bid loc Hs Hrec.
    unfold WsSessionManager.handleSessionEvent. rewrite Hs. simpl.
    rewrite Hrec. destruct m as [ss cfg]. simpl in *.
    unfold WsSessionManager.set_sessions. simpl. f_equal.
    by apply insert_id.
Qed.

End BreakpointResolved.

(** C5 on the sample session of the CDP manager, whose breakpoint [bp-1]
    was resolved at line 10, column 0 when it was set: after a
    [breakpointResolved] at column 4 the record has both locations. *)
Lemma C5_witness :
  SessionManager.bp_resolvedLocations
    <$> SessionManager.breakpoints
          (Sample.session_of
             (SessionManager.deliver (H := Sample.platform) "sid"
                (Protocol.BreakpointResolved "bp-1" (Sample.location 10 4))
                Sample.with_breakpoint))
        !! "bp-1"
  = Some [ {| SessionManager.rl_scriptId := "s-1";
              SessionManager.rl_lineNumber := 10;
              SessionManager.rl_columnNumber := 0 |};
           {| SessionManager.rl_scriptId := "s-1";
              SessionManager.rl_lineNumber := 10;
              SessionManager.rl_columnNumber := 4 |} ].
Proof.
  destruct (proj1 (C5_breakpoint_resolved (H := Sample.platform))
              Sample.with_breakpoint "sid"
              (Sample.session_of Sample.with_breakpoint) "bp-1"
              (Sample.location 10 4)
              (stored "file:///a.js" 10 None None Sample.bp_reply))
    as (s' & r' & Hs' & Htable & Hlocs & _).
  - vm_compute. reflexivity.
  - vm_compute. reflexivity.
  - unfold Sample.session_of. rewrite Hs'. simpl.
    rewrite Htable, lookup_insert_eq. simpl. by rewrite Hlocs.
Defined.

(** C5 as stated fails on the WebSocket manager: the location at column 0
    that the breakpoint [bp-1] had is gone after a [breakpointResolved] at
    column 4. *)
Lemma C5_counterexample :
  WsSessionManager.bp_locations
    <$> WsSessionManager.breakpoints
          (Sample.ws_session_of Sample.ws_with_breakpoint) !! "bp-1"
    = Some [Sample.ws_location 10 0]
  /\ WsSessionManager.bp_locations
       <$> WsSessionManager.breakpoints
             (Sample.ws_session_of
                (WsSessionManager.handleSessionEvent "sid"
                   (WsSessionManager.breakpointResolved "bp-1"
                      (Sample.ws_location 10 4))
                   Sample.ws_with_breakpoint))
           !! "bp-1"
     = Some [Sample.ws_location 10 4].
Proof. split; vm_compute; reflexivity. Qed.

(** ** The WebSocket session manager: looking a session up *)

Section WsLookup.
Import WsSessionManager.

Lemma ws_getSession_found m sessionId session :
  sessions m !! sessionId = Some session ->
  getSession sessionId m = (Ok session, m).
Proof. intros Hs. unfold getSession. by rewrite Hs. Qed.

Lemma requireState_allowed session allowedStates m :
  state session ∈ allowedStates ->
  requireState session allowedStates m = (Ok tt, m).
Proof.
  intros Hin. unfold requireState.
  by rewrite (bool_decide_eq_true_2 _ Hin).
Qed.

Lemma sendCommand_connected {A} sessionId session cmd
    (reply : Outcome DebuggerError A) m :
  isConnected (wsClient session) = true ->
  sendCommand sessionId session cmd reply m =
    (reply, set_sessions (alter (log cmd) sessionId (sessions m)) m).
Proof. intros Hc. unfold sendCommand. by rewrite Hc. Qed.

End WsLookup.

(** ** Scope variables *)

Section ScopeVariables.
Context `{Platform}.

Lemma elem_of_valued props name value :
  {| WsSessionManager.sv_name := name;
     WsSessionManager.sv_value := value |} ∈ valued props
  <-> exists prop,
        prop ∈ props
        /\ WsSessionManager.pr_name prop = name
        /\ WsSessionManager.pr_value prop = Some value.
Proof.
  unfold valued. rewrite list_elem_of_omap. split.
  - intros (prop & Hin & Hsome). exists prop. split; [done|].
    destruct (WsSessionManager.pr_value prop); by simplify_eq.
  - intros (prop & Hin & Hname & Hval). exists prop. split; [done|].
    by rewrite Hval, Hname.
Qed.

(** C4 (amended).  On a paused session whose snapshot holds the named
    frame, with a scope at the given index whose object has an id, both
    managers fetch the properties of that object.  The WebSocket manager
    returns exactly the [(name, value)] pairs of the fetched properties
    that carry a value, in their order: a property without a value is
    skipped and no returned entry lacks one.  The CDP manager returns the
    fetched property descriptors as they are, those without a value
    included. *)
Theorem C4_scope_variables :
  (forall m sessionId session paused callFrameId callFrame scopeIndex scope
          objectId props,
     WsSessionManager.sessions m !! sessionId = Some session ->
     WsSessionManager.state session = WsSessionManager.PAUSED ->
     WsSessionManager.isConnected (WsSessionManager.wsClient session)
       = true ->
     WsSessionManager.pausedState session = Some paused ->
     Js.find
       (fun f => bool_decide (WsSessionManager.cf_callFrameId f
                              = callFrameId))
       (WsSessionManager.ps_callFrames paused) = Some callFrame ->
     Js.index (WsSessionManager.cf_scopeChain callFrame) scopeIndex
       = Some scope ->
     WsSessionManager.ro_objectId (WsSessionManager.sc_object scope)
       = Some objectId ->
     Js.truthy objectId = true ->
     let r :=
       WsSessionManager.getScopeVariables sessionId callFrameId scopeIndex
         (Ok props) m in
     r.1 = Ok (valued props)
     /\ (forall name value,
           {| WsSessionManager.sv_name := name;
              WsSessionManager.sv_value := value |} ∈ valued props
           <-> exists prop,
                 prop ∈ props
                 /\ WsSessionManager.pr_name prop = name
                 /\ WsSessionManager.pr_value prop = Some value)
     /\ WsSessionManager.sent
          <$> (WsSessionManager.wsClient
                 <$> WsSessionManager.sessions r.2 !! sessionId)
        = Some (WsSessionManager.sent (WsSessionManager.wsClient session)
                ++ [WsSessionManager.GetProperties objectId true])%list)
  /\ (forall m sessionId session paused callFrameId callFrame scopeIndex
             scope objectId descriptors,
        SessionManager.sessions m !! sessionId = Some session ->
        SessionManager.state session = SessionManager.PAUSED ->
        SessionManager.connected (SessionManager.cdpClient session)
          = true ->
        SessionManager.pausedState session = Some paused ->
        Js.find
          (fun f => bool_decide (Protocol.cf_callFrameId f = callFrameId))
          (Protocol.ps_callFrames paused) = Some callFrame ->
        Js.index (Protocol.cf_scopeChain callFrame) scopeIndex
          = Some scope ->
        Protocol.ro_objectId (Protocol.sc_object scope) = Some objectId ->
        Js.truthy objectId = true ->
        let r :=
          SessionManager.getScopeVariables sessionId callFrameId scopeIndex
            (Ok descriptors) m in
        r.1 = Ok descriptors
        /\ SessionManager.calls
             <$> (SessionManager.cdpClient
                    <$> SessionManager.sessions r.2 !! sessionId)
           = Some (SessionManager.calls (SessionManager.cdpClient session)
                   ++ [SessionManager.GetProperties objectId])%list).
Proof.
  split.
  - intros m sid s paused fid frame idx scope oid props
      Hs Hst Hc Hp Hframe Hscope Hoid Htruthy r.
    assert (Hrange : (bool_decide (idx < 0)
              || bool_decide
                   (idx >= Z.of_nat
                             (length (WsSessionManager.cf_scopeChain frame))))
             = false).
    { unfold Js.index in Hscope. case_bool_decide as Hnn; [|done].
      apply lookup_lt_Some in Hscope.
      rewrite bool_decide_eq_false_2 by lia.
      rewrite bool_decide_eq_false_2 by lia. done. }
    assert (Hr : r = (Ok (valued props),
                      WsSessionManager.set_sessions
                        (alter (WsSessionManager.log
                                  (WsSessionManager.GetProperties oid true))
                           sid (WsSessionManager.sessions m)) m)).
    { unfold r, WsSessionManager.getScopeVariables.
      rewrite (bind_ok _ _ _ _ _ (ws_getSession_found _ _ _ Hs)).
      rewrite (bind_ok _ _ _ _ _
                 (requireState_allowed s [WsSessionManager.PAUSED] m
                    ltac:(rewrite Hst; by left))).
      rewrite Hp, Hframe, Hrange, Hscope, Hoid, Htruthy.
      by rewrite (bind_ok _ _ _ _ _
                    (sendCommand_connected _ _ _ _ _ Hc)). }
    rewrite Hr. split; [done|]. split; [apply elem_of_valued|].
    simpl. by rewrite lookup_alter_eq, Hs.
  - intros m sid s paused fid frame idx scope oid descriptors
      Hs Hst Hc Hp Hframe Hscope Hoid Htruthy r.
    assert (Hr : r = (Ok descriptors,
                      {| SessionManager.sessions :=
                           alter (SessionManager.handle_all [])
                             sid
                             (alter (SessionManager.log
                                       (SessionManager.GetProperties oid))
                                sid (SessionManager.sessions m)) |})).
    { unfold r, SessionManager.getScopeVariables.
      rewrite (bind_ok _ _ _ _ _ (getSession_found _ _ _ Hs)).
      rewrite (bind_ok _ _ _ _ _
                 (ensurePaused_ok s m Hst ltac:(by rewrite Hp))).
      rewrite Hp. simpl. rewrite Hframe, Hscope. simpl.
      rewrite Hoid, Htruthy. unfold SessionManager.call. by rewrite Hc. }
    rewrite Hr. split; [done|]. simpl.
    by rewrite !lookup_alter_eq, Hs.
Qed.

End ScopeVariables.

(** C4 on the paused sample session of the WebSocket manager: of the two
    fetched properties, the variable [x] is returned and the accessor
    [acc], which has no value, is skipped. *)
Lemma C4_witness :
  (WsSessionManager.getScopeVariables "sid" "frame-1" 0
     (Ok Sample.ws_properties) Sample.ws_at_pause).1
  = Ok [ {| WsSessionManager.sv_name := "x";
            WsSessionManager.sv_value := Sample.ws_number 1 |} ].
Proof.
  apply (proj1 (C4_scope_variables (H := Sample.platform))
           Sample.ws_at_pause "sid"
           (Sample.ws_session_of Sample.ws_at_pause) Sample.ws_paused
           "frame-1" Sample.ws_frame 0 Sample.ws_scope "obj-1"
           Sample.ws_properties);
    vm_compute; reflexivity.
Defined.

(** C4 as stated fails on the CDP manager: of the two fetched property
    descriptors, the accessor [acc], which has no value, is returned. *)
Lemma C4_counterexample :
  (SessionManager.getScopeVariables (H := Sample.platform) "sid" "frame-1"
     0 (Ok [Sample.variable_x; Sample.accessor_acc]) Sample.at_pause).1
  = Ok [Sample.variable_x; Sample.accessor_acc]
  /\ Protocol.pd_value Sample.accessor_acc = None.
Proof. split; vm_compute; reflexivity. Qed.

(** ** Setting a variable *)

Section SetVariable.
Context `{Platform}.

Lemma callArgument_of_cases (result : Protocol.RemoteObject) :
  (Js.truthy_opt (Protocol.ro_objectId result) = true ->
   SessionManager.callArgument_of result =
     {| Protocol.ca_value := None;
        Protocol.ca_unserializableValue := None;
        Protocol.ca_objectId := Protocol.ro_objectId result |})
  /\ (Js.truthy_opt (Protocol.ro_objectId result) = false ->
      is_Some (Protocol.ro_value result) ->
      SessionManager.callArgument_of result =
        {| Protocol.ca_value := Protocol.ro_value result;
           Protocol.ca_unserializableValue := None;
           Protocol.ca_objectId := None |})
  /\ (Js.truthy_opt (Protocol.ro_objectId result) = false ->
      Protocol.ro_value result = None ->
      Js.truthy_opt (Protocol.ro_unserializableValue result) = true ->
      SessionManager.callArgument_of result =
        {| Protocol.ca_value := None;
           Protocol.ca_unserializableValue :=
             Protocol.ro_unserializableValue result;
           Protocol.ca_objectId := None |})
  /\ (Js.truthy_opt (Protocol.ro_objectId result) = false ->
      Protocol.ro_value result = None ->
      Js.truthy_opt (Protocol.ro_unserializableValue result) = false ->
      SessionManager.callArgument_of result = Protocol.empty_argument).
Proof.
  unfold SessionManager.callArgument_of. repeat split.
  - by intros ->.
  - intros -> Hv. by rewrite (bool_decide_eq_true_2 _ Hv).
  - intros -> Hv ->. rewrite Hv.
    by rewrite bool_decide_eq_false_2 by by intros [? [=]].
  - intros -> Hv ->. rewrite Hv.
    by rewrite bool_decide_eq_false_2 by by intros [? [=]].
Qed.

(** The argument the code builds is the documented one except for an
    object without id that has both a value and an unserializable
    form. *)
Lemma callArgument_of_documented (result : Protocol.RemoteObject) :
  Js.truthy_opt (Protocol.ro_objectId result) = true
  \/ Protocol.ro_value result = None
  \/ Js.truthy_opt (Protocol.ro_unserializableValue result) = false ->
  SessionManager.callArgument_of result = documented_argument result.
Proof.
  unfold SessionManager.callArgument_of, documented_argument.
  intros [-> | [Hv | Hu]]; [done| |].
  - rewrite Hv. rewrite bool_decide_eq_false_2 by by intros [? [=]].
    by repeat case_match.
  - rewrite Hu. destruct (Js.truthy_opt _); [done|].
    case_bool_decide as Hv; [done|].
    destruct (Protocol.ro_value result); [|done].
    by destruct Hv.
Qed.

(** C3 (amended).  On a paused, connected session, [setVariableValue]
    first evaluates the expression on the given frame with
    [returnByValue = false].  In the CDP manager: when the reply carries
    exception details, no [Debugger.setVariableValue] is sent and the
    call fails with [PROTOCOL_ERROR] and a message that ends with the
    exception text; otherwise [Debugger.setVariableValue] is sent with
    the scope index, the variable name, the frame, and the argument
    [{objectId}] when the evaluated object has a non-empty object id,
    else [{value}] when it has a [value] key, else
    [{unserializableValue}] when it has a non-empty unserializable form,
    else [{}]; this is the documented argument unless the object has no
    id and has both a value and an unserializable form.  The WebSocket
    manager reads no exception details: it always sends
    [Debugger.setVariableValue] with [{value}] taken from the evaluated
    object. *)
Theorem C3_set_variable_value :
  (forall m sessionId session callFrameId scopeIndex variableName newValue
          evaluated setReply,
     SessionManager.sessions m !! sessionId = Some session ->
     SessionManager.state session = SessionManager.PAUSED ->
     is_Some (SessionManager.pausedState session) ->
     SessionManager.connected (SessionManager.cdpClient session) = true ->
     let r :=
       SessionManager.setVariableValue sessionId callFrameId scopeIndex
         variableName newValue (Ok evaluated) setReply m in
     let sent :=
       SessionManager.calls
         <$> (SessionManager.cdpClient
                <$> SessionManager.sessions r.2 !! sessionId) in
     let evaluation :=
       SessionManager.EvaluateOnCallFrame callFrameId newValue false in
     match Protocol.ev_exceptionDetails evaluated with
     | Some details =>
         r.1 = Throw (SessionManager.createError
                        SessionManager.PROTOCOL_ERROR
                        ("Failed to evaluate new value: " +:+
                         Protocol.ex_text details))
         /\ sent =
              Some (SessionManager.calls
                      (SessionManager.cdpClient session)
                    ++ [evaluation])%list
     | None =>
         r.1 = setReply
         /\ sent =
              Some (SessionManager.calls
                      (SessionManager.cdpClient session)
                    ++ [evaluation;
                        SessionManager.SetVariableValue scopeIndex
                          variableName
                          (SessionManager.callArgument_of
                             (Protocol.ev_result evaluated))
                          callFrameId])%list
     end)
  /\ (forall result,
        (Js.truthy_opt (Protocol.ro_objectId result) = true ->
         SessionManager.callArgument_of result =
           {| Protocol.ca_value := None;
              Protocol.ca_unserializableValue := None;
              Protocol.ca_objectId := Protocol.ro_objectId result |})
        /\ (Js.truthy_opt (Protocol.ro_objectId result) = false ->
            is_Some (Protocol.ro_value result) ->
            SessionManager.callArgument_of result =
              {| Protocol.ca_value := Protocol.ro_value result;
                 Protocol.ca_unserializableValue := None;
                 Protocol.ca_objectId := None |})
        /\ (Js.truthy_opt (Protocol.ro_objectId result) = false ->
            Protocol.ro_value result = None ->
            Js.truthy_opt (Protocol.ro_unserializableValue result) = true ->
            SessionManager.callArgument_of result =
              {| Protocol.ca_value := None;
                 Protocol.ca_unserializableValue :=
                   Protocol.ro_unserializableValue result;
                 Protocol.ca_objectId := None |})
        /\ (Js.truthy_opt (Protocol.ro_objectId result) = false ->
            Protocol.ro_value result = None ->
            Js.truthy_opt (Protocol.ro_unserializableValue result)
              = false ->
            SessionManager.callArgument_of result
              = Protocol.empty_argument)
        /\ (Js.truthy_opt (Protocol.ro_objectId result) = true
            \/ Protocol.ro_value result = None
            \/ Js.truthy_opt (Protocol.ro_unserializableValue result)
               = false ->
            SessionManager.callArgument_of result
              = documented_argument result))
  /\ (forall m sessionId session callFrameId scopeIndex variableName
             newValue evaluated setReply,
        WsSessionManager.sessions m !! sessionId = Some session ->
        WsSessionManager.state session = WsSessionManager.PAUSED ->
        WsSessionManager.isConnected (WsSessionManager.wsClient session)
          = true ->
        let r :=
          WsSessionManager.setVariableValue sessionId callFrameId
            scopeIndex variableName newValue (Ok evaluated) setReply m in
        r.1 = setReply
        /\ WsSessionManager.sent
             <$> (WsSessionManager.wsClient
                    <$> WsSessionManager.sessions r.2 !! sessionId)
           = Some (WsSessionManager.sent (WsSessionManager.wsClient session)
                   ++ [WsSessionManager.EvaluateOnCallFrame callFrameId
                         newValue false;
                       WsSessionManager.SetVariableValue scopeIndex
                         variableName
                         (WsSessionManager.ro_value evaluated)
                         callFrameId])%list).
Proof.
  split; [|split].
  - intros m sid s fid idx var expr evaluated setReply Hs Hst Hp Hc.
    cbv zeta. unfold SessionManager.setVariableValue.
    rewrite (bind_ok _ _ _ _ _ (getSession_found _ _ _ Hs)).
    rewrite (bind_ok _ _ _ _ _ (ensurePaused_ok s m Hst Hp)).
    unfold SessionManager.call. rewrite Hc.
    unfold SessionManager.update, modify, await, throw, mbind, M_bind,
      bind. simpl.
    destruct (Protocol.ev_exceptionDetails evaluated) as [details|]; simpl.
    + split; [done|]. by rewrite !lookup_alter_eq, Hs.
    + split; [done|]. rewrite !lookup_alter_eq, Hs. simpl.
      by rewrite <- app_assoc.
  - intros result.
    destruct (callArgument_of_cases result) as (H1 & H2 & H3 & H4).
    repeat split; try done. apply callArgument_of_documented.
  - intros m sid s fid idx var expr evaluated setReply Hs Hst Hc.
    cbv zeta. unfold WsSessionManager.setVariableValue.
    rewrite (bind_ok _ _ _ _ _ (ws_getSession_found _ _ _ Hs)).
    rewrite (bind_ok _ _ _ _ _
               (requireState_allowed s [WsSessionManager.PAUSED] m
                  ltac:(rewrite Hst; by left))).
    rewrite (bind_ok _ _ _ _ _ (sendCommand_connected _ _ _ _ _ Hc)).
    rewrite sendCommand_connected by done. simpl.
    split; [done|]. rewrite !lookup_alter_eq, Hs. simpl.
    by rewrite <- app_assoc.
Qed.

End SetVariable.

(** C3 on the paused sample session: the evaluation of [missing] carries
    exception details, the call fails with the exception text, and only
    the evaluation was sent. *)
Lemma C3_witness :
  let r :=
    SessionManager.setVariableValue (H := Sample.platform) "sid" "frame-1"
      0 "x" "missing"
      (Ok {| Protocol.ev_result := Sample.object "err-1";
             Protocol.ev_exceptionDetails :=
               Some {| Protocol.ex_text := "ReferenceError";
                       Protocol.ex_lineNumber := 1;
                       Protocol.ex_columnNumber := 0 |} |})
      (Ok tt) Sample.at_pause in
  r.1 = Throw (SessionManager.createError SessionManager.PROTOCOL_ERROR
                 "Failed to evaluate new value: ReferenceError")
  /\ SessionManager.calls
       <$> (SessionManager.cdpClient
              <$> SessionManager.sessions r.2 !! "sid")
     = Some [ SessionManager.Connect "ws://localhost:9229/t";
              SessionManager.EvaluateOnCallFrame "frame-1" "missing"
                false ].
Proof.
  apply (proj1 (C3_set_variable_value (H := Sample.platform))
           Sample.at_pause "sid" (Sample.session_of Sample.at_pause)
           "frame-1" 0 "x" "missing"
           {| Protocol.ev_result := Sample.object "err-1";
              Protocol.ev_exceptionDetails :=
                Some {| Protocol.ex_text := "ReferenceError";
                        Protocol.ex_lineNumber := 1;
                        Protocol.ex_columnNumber := 0 |} |}
           (Ok tt)).
  - vm_compute. reflexivity.
  - reflexivity.
  - by eexists.
  - reflexivity.
Defined.

(** C3 as stated fails.  For an evaluated object without id that has a
    value and an unserializable form, the documented argument is
    [{unserializableValue}] and the CDP manager sends [{value}].  For an
    evaluated object with the id [obj-2] and no value, the documented
    argument is [{objectId}] and the WebSocket manager sends a [{value}]
    whose value is undefined. *)
Lemma C3_counterexample :
  documented_argument Sample.value_and_unserializable =
    {| Protocol.ca_value := None;
       Protocol.ca_unserializableValue := Some "Infinity";
       Protocol.ca_objectId := None |}
  /\ SessionManager.calls
       <$> (SessionManager.cdpClient
              <$> SessionManager.sessions
                    (SessionManager.setVariableValue
                       (H := Sample.platform) "sid" "frame-1" 0 "x" "1/0"
                       (Ok {| Protocol.ev_result :=
                                Sample.value_and_unserializable;
                              Protocol.ev_exceptionDetails := None |})
                       (Ok tt) Sample.at_pause).2 !! "sid")
     = Some [ SessionManager.Connect "ws://localhost:9229/t";
              SessionManager.EvaluateOnCallFrame "frame-1" "1/0" false;
              SessionManager.SetVariableValue 0 "x"
                {| Protocol.ca_value := Some (Protocol.JNum 1);
                   Protocol.ca_unserializableValue := None;
                   Protocol.ca_objectId := None |}
                "frame-1" ]
  /\ WsSessionManager.ro_objectId (Sample.ws_object "obj-2")
     = Some "obj-2"
  /\ WsSessionManager.sent
       <$> (WsSessionManager.wsClient
              <$> WsSessionManager.sessions
                    (WsSessionManager.setVariableValue "sid" "frame-1" 0
                       "x" "other" (Ok (Sample.ws_object "obj-2")) (Ok tt)
                       Sample.ws_at_pause).2 !! "sid")
     = Some [ WsSessionManager.DebuggerEnable;
              WsSessionManager.EvaluateOnCallFrame "frame-1" "other" false;
              WsSessionManager.SetVariableValue 0 "x" None "frame-1" ].
Proof. repeat split; vm_compute; reflexivity. Qed.

(** ** Admission of target URLs and the session cap *)

Section Admission.
Context `{Platform}.

Lemma validateTargetUrl_state url m :
  (WsSessionManager.validateTargetUrl url m).2 = m.
Proof.
  unfold WsSessionManager.validateTargetUrl. by repeat case_match.
Qed.

Lemma validateTargetUrl_admitted url m :
  (WsSessionManager.validateTargetUrl url m).1 = Ok tt
  <-> admitted (WsSessionManager.config m) url.
Proof.
  unfold WsSessionManager.validateTargetUrl, admitted,
    Js.array_includes.
  destruct (URL_parse url) as [parsed|]; simpl.
  - destruct (String.eqb_spec (protocol parsed) "ws:") as [Hws|Hws];
      destruct (String.eqb_spec (protocol parsed) "wss:") as [Hwss|Hwss];
      simpl.
    all: try (case_bool_decide as Hin; simpl;
              [ split; [intros _; exists parsed; by auto | done] |
                destruct (WsSessionManager.requireConfirmationForRemote
                            (WsSessionManager.config m)) eqn:Hreq; simpl;
                [ split; [done|];
                  intros (p & [= <-] & _ & [Hh | Hh]); done
                | split; [intros _; exists parsed; by auto | done] ] ]).
    split; [done|]. intros (p & [= <-] & [Hp | Hp] & _); done.
  - split; [done|]. by intros (p & Hp & _).
Qed.

Lemma validateTargetUrl_rejects url m e :
  (WsSessionManager.validateTargetUrl url m).1 = Throw e ->
  WsSessionManager.code e = WsSessionManager.INVALID_PARAMETERS.
Proof.
  unfold WsSessionManager.validateTargetUrl.
  repeat case_match; simpl; by intros [= <-].
Qed.

Lemma connect_rejected url name sessionId during handshake m e :
  (WsSessionManager.validateTargetUrl url m).1 = Throw e ->
  WsSessionManager.connect url name sessionId during handshake m
  = (Throw e, m).
Proof.
  intros Hv. unfold WsSessionManager.connect.
  pose proof (validateTargetUrl_state url m) as Hst.
  destruct (WsSessionManager.validateTargetUrl url m) as [o m'] eqn:Hval.
  simpl in *. subst. by rewrite (bind_throw _ _ _ _ _ Hval).
Qed.

Lemma connect_full url name sessionId during handshake m :
  (WsSessionManager.validateTargetUrl url m).1 = Ok tt ->
  Z.of_nat (size (WsSessionManager.sessions m)) >=
    WsSessionManager.maxConcurrentSessions (WsSessionManager.config m) ->
  WsSessionManager.connect url name sessionId during handshake m =
    (Throw {| WsSessionManager.code :=
                WsSessionManager.MAX_SESSIONS_REACHED;
              WsSessionManager.message :=
                "Maximum concurrent sessions (" +:+
                pretty (WsSessionManager.maxConcurrentSessions
                          (WsSessionManager.config m)) +:+
                ") reached" |}, m).
Proof.
  intros Hv Hfull. unfold WsSessionManager.connect.
  pose proof (validateTargetUrl_state url m) as Hst.
  destruct (WsSessionManager.validateTargetUrl url m) as [o m'] eqn:Hval.
  simpl in *. subst. rewrite (bind_ok _ _ _ _ _ Hval).
  unfold gets, mbind, M_bind, bind. simpl.
  by rewrite bool_decide_eq_true_2.
Qed.

(** C1 (amended).  [connect] of the WebSocket manager admits a target URL
    only if it parses, its scheme is [ws] or [wss], and its host is on the
    configured allow-list or the configuration does not require
    confirmation for remote hosts; for a URL that does not parse, for
    one with another scheme, and for any URL that is not admitted, it
    fails with [INVALID_PARAMETERS] and leaves the registry as it was.
    [createSession] of the CDP manager has no admission policy: whatever
    the URL, it installs the session when the handshake succeeds and
    fails with [CONNECTION_FAILED], the registry unchanged, when it does
    not. *)
Theorem C1_url_admission :
  (forall m url name sessionId during handshake,
     let r :=
       WsSessionManager.connect url name sessionId during handshake m in
     (is_ok r.1 = true -> admitted (WsSessionManager.config m) url)
     /\ (~ admitted (WsSessionManager.config m) url ->
         exists message,
           r = (Throw {| WsSessionManager.code :=
                           WsSessionManager.INVALID_PARAMETERS;
                         WsSessionManager.message := message |}, m))
     /\ (URL_parse url = None ->
         r = (Throw {| WsSessionManager.code :=
                         WsSessionManager.INVALID_PARAMETERS;
                       WsSessionManager.message :=
                         "Invalid URL: " +:+ url |}, m))
     /\ (forall parsed,
           URL_parse url = Some parsed ->
           protocol parsed <> "ws:" -> protocol parsed <> "wss:" ->
           r = (Throw {| WsSessionManager.code :=
                           WsSessionManager.INVALID_PARAMETERS;
                         WsSessionManager.message :=
                           "URL must use ws:// or wss:// scheme: " +:+
                           url |}, m)))
  /\ (forall m url name sessionId during handshake,
        let r :=
          SessionManager.createSession url name sessionId during handshake
            m in
        match handshake with
        | Ok _ =>
            r.1 = Ok sessionId
            /\ is_Some (SessionManager.sessions r.2 !! sessionId)
        | Throw msg =>
            r = (Throw (SessionManager.createError
                          SessionManager.CONNECTION_FAILED
                          ("Failed to connect to " +:+ url +:+ ": " +:+
                           msg)), m)
        end).
Proof.
  split.
  - intros m url name sid during handshake r.
    assert (Hrej : ~ admitted (WsSessionManager.config m) url ->
              exists message,
                r = (Throw {| WsSessionManager.code :=
                                WsSessionManager.INVALID_PARAMETERS;
                              WsSessionManager.message := message |}, m)).
    { intros Hno.
      destruct (WsSessionManager.validateTargetUrl url m).1 as [[]|e]
        eqn:Hv.
      - by apply validateTargetUrl_admitted in Hv.
      - pose proof (validateTargetUrl_rejects _ _ _ Hv) as Hcode.
        exists (WsSessionManager.message e). unfold r.
        rewrite (connect_rejected _ _ _ _ _ _ _ Hv).
        destruct e as [c msg]. simpl in *. by subst c. }
    split; [|split; [done|split]].
    + intros Hok.
      destruct (WsSessionManager.validateTargetUrl url m).1 as [[]|e]
        eqn:Hv.
      * by apply validateTargetUrl_admitted.
      * unfold r in Hok.
        by rewrite (connect_rejected _ _ _ _ _ _ _ Hv) in Hok.
    + intros Hparse. unfold r. apply connect_rejected.
      unfold WsSessionManager.validateTargetUrl. by rewrite Hparse.
    + intros parsed Hparse Hws Hwss. unfold r. apply connect_rejected.
      unfold WsSessionManager.validateTargetUrl. rewrite Hparse.
      apply String.eqb_neq in Hws, Hwss. by rewrite Hws, Hwss.
  - intros m url name sid during handshake.
    unfold SessionManager.createSession.
    destruct handshake as [[]|msg]; [|done]. simpl.
    split; [done|]. rewrite lookup_insert_eq. by eexists.
Qed.

(** C2 (amended).  When the registry of the WebSocket manager holds at
    least the configured maximum of sessions, [connect] installs nothing
    and leaves the registry as it was: with a URL that passes admission
    it fails with [MAX_SESSIONS_REACHED], and with a URL that does not
    it fails with [INVALID_PARAMETERS], since the URL is validated first.
    [createSession] of the CDP manager has no cap: it installs the session
    whenever the handshake succeeds, whatever the number of sessions. *)
Theorem C2_session_cap :
  (forall m url name sessionId during handshake,
     Z.of_nat (size (WsSessionManager.sessions m)) >=
       WsSessionManager.maxConcurrentSessions (WsSessionManager.config m) ->
     let r :=
       WsSessionManager.connect url name sessionId during handshake m in
     r.2 = m
     /\ (admitted (WsSessionManager.config m) url ->
         r.1 = Throw {| WsSessionManager.code :=
                          WsSessionManager.MAX_SESSIONS_REACHED;
                        WsSessionManager.message :=
                          "Maximum concurrent sessions (" +:+
                          pretty (WsSessionManager.maxConcurrentSessions
                                    (WsSessionManager.config m)) +:+
                          ") reached" |})
     /\ (~ admitted (WsSessionManager.config m) url ->
         exists message,
           r.1 = Throw {| WsSessionManager.code :=
                            WsSessionManager.INVALID_PARAMETERS;
                          WsSessionManager.message := message |}))
  /\ (forall m url name sessionId during,
        let r :=
          SessionManager.createSession url name sessionId during (Ok tt)
            m in
        r.1 = Ok sessionId
        /\ is_Some (SessionManager.sessions r.2 !! sessionId)
        /\ (SessionManager.sessions m !! sessionId = None ->
            size (SessionManager.sessions r.2)
              = S (size (SessionManager.sessions m)))).
Proof.
  split.
  - intros m url name sid during handshake Hfull r.
    destruct (WsSessionManager.validateTargetUrl url m).1 as [[]|e] eqn:Hv.
    + unfold r. rewrite (connect_full _ _ _ _ _ _ Hv Hfull). simpl.
      split; [done|]. split; [done|].
      intros Hno. by apply validateTargetUrl_admitted in Hv.
    + unfold r. rewrite (connect_rejected _ _ _ _ _ _ _ Hv). simpl.
      split; [done|]. split.
      * intros Hyes. apply validateTargetUrl_admitted in Hyes. congruence.
      * intros _. pose proof (validateTargetUrl_rejects _ _ _ Hv) as Hcode.
        exists (WsSessionManager.message e). destruct e as [c msg].
        simpl in *. by subst c.
  - intros m url name sid during. unfold SessionManager.createSession.
    simpl. split; [done|]. split.
    + rewrite lookup_insert_eq. by eexists.
    + intros Hfresh. by apply map_size_insert_None.
Qed.

End Admission.

(** C1 on the sample WebSocket manager: a URL with the scheme [http] and
    a string that is no URL are refused with [INVALID_PARAMETERS], and the
    registry is as before. *)
Lemma C1_witness :
  WsSessionManager.connect (H := Sample.platform)
    "http://localhost:9229/json" None "sid-2" [] (Ok tt)
    Sample.ws_connected
  = (Throw {| WsSessionManager.code := WsSessionManager.INVALID_PARAMETERS;
              WsSessionManager.message :=
                "URL must use ws:// or wss:// scheme: http://localhost:9229/json" |},
     Sample.ws_connected)
  /\ WsSessionManager.connect (H := Sample.platform) "not a url" None
       "sid-2" [] (Ok tt) Sample.ws_connected
     = (Throw {| WsSessionManager.code :=
                   WsSessionManager.INVALID_PARAMETERS;
                 WsSessionManager.message := "Invalid URL: not a url" |},
        Sample.ws_connected).
Proof.
  split.
  - apply (proj1 (C1_url_admission (H := Sample.platform))
             Sample.ws_connected "http://localhost:9229/json" None "sid-2"
             [] (Ok tt))
      with (parsed := {| protocol := "http:"; hostname := "localhost" |});
      [reflexivity | discriminate | discriminate].
  - apply (proj1 (C1_url_admission (H := Sample.platform))
             Sample.ws_connected "not a url" None "sid-2" [] (Ok tt)).
    reflexivity.
Defined.

(** C1 as stated fails on the CDP manager: a URL with the scheme [http]
    is installed as a session when the handshake succeeds, and is refused
    with [CONNECTION_FAILED] when it does not. *)
Lemma C1_counterexample :
  (SessionManager.createSession (H := Sample.platform)
     "http://localhost:9229/json" None "sid" [] (Ok tt)
     SessionManager.empty).1 = Ok "sid"
  /\ SessionManager.targetUrl
       <$> SessionManager.sessions
             (SessionManager.createSession (H := Sample.platform)
                "http://localhost:9229/json" None "sid" [] (Ok tt)
                SessionManager.empty).2 !! "sid"
     = Some "http://localhost:9229/json"
  /\ (SessionManager.createSession (H := Sample.platform)
        "http://localhost:9229/json" None "sid" []
        (Throw "No such target id") SessionManager.empty).1
     = Throw (SessionManager.createError SessionManager.CONNECTION_FAILED
                "Failed to connect to http://localhost:9229/json: No such target id").
Proof. repeat split; vm_compute; reflexivity. Qed.

(** C2 on the WebSocket manager with ten sessions and the default
    maximum of ten: an eleventh [connect] with an admitted URL fails with
    [MAX_SESSIONS_REACHED] and the registry is as before. *)
Lemma C2_witness :
  let r :=
    WsSessionManager.connect (H := Sample.platform)
      "ws://localhost:9229/t" None "s10" [] (Ok tt) Sample.ws_full in
  r.2 = Sample.ws_full
  /\ r.1 = Throw {| WsSessionManager.code :=
                      WsSessionManager.MAX_SESSIONS_REACHED;
                    WsSessionManager.message :=
                      "Maximum concurrent sessions (10) reached" |}.
Proof.
  destruct (proj1 (C2_session_cap (H := Sample.platform)) Sample.ws_full
              "ws://localhost:9229/t" None "s10" [] (Ok tt))
    as (Hsame & Hcap & _).
  - by vm_compute.
  - split; [exact Hsame|]. apply Hcap.
    exists {| protocol := "ws:"; hostname := "localhost" |}.
    split; [reflexivity|]. split; [by left|]. left. by left.
Defined.

(** C2 as stated fails.  On the WebSocket manager with ten sessions and
    the maximum of ten, a [connect] whose URL has the scheme [http] fails
    with [INVALID_PARAMETERS], not with [MAX_SESSIONS_REACHED].  On the CDP
    manager with ten sessions installed, an eleventh [createSession]
    succeeds and the registry holds eleven sessions. *)
Lemma C2_counterexample :
  size (WsSessionManager.sessions Sample.ws_full) = 10%nat
  /\ WsSessionManager.maxConcurrentSessions
       (WsSessionManager.config Sample.ws_full) = 10
  /\ (WsSessionManager.connect (H := Sample.platform)
        "http://localhost:9229/json" None "s10" [] (Ok tt)
        Sample.ws_full).1
     = Throw {| WsSessionManager.code :=
                  WsSessionManager.INVALID_PARAMETERS;
                WsSessionManager.message :=
                  "URL must use ws:// or wss:// scheme: http://localhost:9229/json" |}
  /\ size (SessionManager.sessions Sample.full) = 10%nat
  /\ (SessionManager.createSession (H := Sample.platform)
        "ws://localhost:9229/t" None "s10" [] (Ok tt) Sample.full).1
     = Ok "s10"
  /\ size (SessionManager.sessions
             (SessionManager.createSession (H := Sample.platform)
                "ws://localhost:9229/t" None "s10" [] (Ok tt)
                Sample.full).2) = 11%nat.
Proof. repeat split; vm_compute; reflexivity. Qed.
